(** * The plan / generate / execute / retry workflow of [src/graph/workflow.py]

    A shallow embedding of [create_workflow]: the four node functions
    ([plan_task], [execute_task], [execute_with_exec], [format_result]), the
    router [retry_code], the edges of the state graph and a driver that runs
    the graph, followed by the properties of the retry loop.

    What lies outside the file is taken as a parameter of the development:
    the language model ([llm]), the effect of running a piece of generated
    code ([py_exec]), the dataset ([df]) and the three system prompts. *)

From Stdlib Require Import Ascii.
From stdpp Require Import gmap strings list fin_maps.

Local Open Scope string_scope.
Local Open Scope list_scope.
Local Open Scope Z_scope.

(** ** Python values and exceptions *)

(** The values generated code can leave in [output_dict]. *)
#[warnings="-register-all"] Inductive pyval :=
| VNone
| VInt (z : Z)
| VStr (s : string)
| VDict (items : list (string * pyval)).

(** The type of the [error] field, [Optional[str]]. *)
Inductive err_val :=
| ErrNone
| ErrText (s : string).

(** Truthiness of an [Optional[str]], the test of [if error:]. *)
Definition truthy (e : err_val) : bool :=
  match e with
  | ErrNone => false
  | ErrText s => negb (String.eqb s EmptyString)
  end.

(** [error == None]. *)
Definition is_None (e : err_val) : bool :=
  match e with
  | ErrNone => true
  | ErrText _ => false
  end.

(** A raised exception: the name of its class, whether the class derives
    from [Exception] (what [except Exception] tests; [SystemExit],
    [KeyboardInterrupt] and [GeneratorExit] derive from [BaseException]
    only) and [str(e)]. *)
Record exn := mkExn {
  exn_class : string;
  isinstance_Exception : bool;
  exn_str : string
}.

Definition KeyError (key : string) : exn :=
  mkExn "KeyError" true ("'" +:+ key +:+ "'").

Definition ValueError (msg : string) : exn :=
  mkExn "ValueError" true msg.

Definition UnboundLocalError (name : string) : exn :=
  mkExn "UnboundLocalError" true
        ("cannot access local variable '" +:+ name
           +:+ "' where it is not associated with a value").

Inductive result (A : Type) :=
| Ok (a : A)
| Raise (e : exn).
Arguments Ok {A} a.
Arguments Raise {A} e.

(** ** The session state *)

(** Modelled from the spec: the [State] dictionary of
    [src/models/state_models], whose declaration is not part of the
    sources at hand.  It is a dictionary with the seven keys of the data
    model; a field is [None] here when the key is absent from the
    dictionary (reading it raises [KeyError]).  The same type serves for
    the partial dictionaries the nodes return. *)
Record State := mkState {
  user_query : option string;
  task_plan : option string;
  code : option string;
  error : option err_val;
  iterations : option Z;
  output : option pyval;
  answer : option string
}.

Definition or_else {A} (new old : option A) : option A :=
  match new with
  | Some _ => new
  | None => old
  end.

(** Merging the dictionary a node returns into the session state: every
    key of the update overwrites the state's (no field of the state has a
    reducer), the other keys are kept. *)
Definition dict_update (st upd : State) : State :=
  mkState (or_else (user_query upd) (user_query st))
          (or_else (task_plan upd) (task_plan st))
          (or_else (code upd) (code st))
          (or_else (error upd) (error st))
          (or_else (iterations upd) (iterations st))
          (or_else (output upd) (output st))
          (or_else (answer upd) (answer st)).

(** [state["output"] = v]. *)
Definition set_output (st : State) (v : pyval) : State :=
  mkState (user_query st) (task_plan st) (code st) (error st)
          (iterations st) (Some v) (answer st).

(** No result in the state: the key is absent or bound to [None]. *)
Definition no_output (st : State) : bool :=
  match output st with
  | None | Some VNone => true
  | Some _ => false
  end.

(** ** The dataset and its schema description *)

Record DataFrame := mkDataFrame {
  df_head_markdown : string;            (* df.head(2).to_markdown() *)
  df_columns : list string;             (* df.columns *)
  df_dtypes : list (string * string)    (* df.dtypes.items() *)
}.

Definition nl : string := String (ascii_of_nat 10) EmptyString.

Definition df_schema_preview (df : DataFrame) : string * string * string :=
  let data_frame_preview := df_head_markdown df in
  let available_columns :=
    fold_left (fun acc col => acc +:+ "| " +:+ col +:+ " |" +:+ nl)
              (df_columns df)
              ("| Column Name |" +:+ nl +:+ "|--------|" +:+ nl) in
  let column_data_types :=
    fold_left (fun acc cd => acc +:+ "| " +:+ fst cd +:+ " | " +:+ snd cd
                               +:+ " |" +:+ nl)
              (df_dtypes df)
              ("| Column Name | Data Type |" +:+ nl
                 +:+ "|---------|--------|" +:+ nl) in
  (data_frame_preview, available_columns, column_data_types).

(** ** Requests to the language model *)

(** The three chat prompts are kept as the system prompt and the values
    bound to the variables of the human template; the repair request is the
    one string [execute_task] builds. *)
Inductive llm_request :=
| PlanRequest (system data_frame_preview available_columns
                 column_data_types user_question : string)
| CodeRequest (system data_frame_preview available_columns
                 column_data_types execution_plan user_question : string)
| RepairRequest (instruction : string)
| FormatRequest (system user_question : string) (result_ : pyval).

Definition show_err (e : err_val) : string :=
  match e with
  | ErrNone => "None"
  | ErrText s => s
  end.

(** The f-string of the repair branch. *)
Definition repair_prompt (error : err_val) (code task_plan : string) : string :=
  "You have been given error: " +:+ show_err error
    +:+ " and Python code: " +:+ code
    +:+ " along with Task Plan " +:+ task_plan
    +:+ ". Please fix the error and generate the correct python code to perform the task plan. Donot change the task plan and the column names. Use the existing 'df' and strictly follow the given plan.".

(** ** The namespace of [exec] *)

Inductive host_object :=
| HDataFrame
| HModule (name : string)
| HClass (name : string).

Definition exec_globals : gmap string host_object :=
  <["df" := HDataFrame]>
  (<["pd" := HModule "pandas"]>
  (<["px" := HModule "plotly.express"]>
  (<["np" := HModule "numpy"]>
  (<["re" := HModule "re"]>
  (<["dt" := HClass "datetime.datetime"]>
  (<["go" := HModule "plotly.graph_objects"]> ∅)))))).

Definition exec_locals : gmap string pyval := ∅.

(** What Python's [exec(source, globals, locals)] does to [globals] before
    it runs the source: "if the globals dictionary does not contain a value
    for the key [__builtins__], a reference to the dictionary of the
    built-in module [builtins] is inserted under that key". *)
Definition exec_namespace (globals : gmap string host_object)
  : gmap string host_object :=
  match globals !! "__builtins__" with
  | Some _ => globals
  | None => <["__builtins__" := HModule "builtins"]> globals
  end.

(** The names the execution step means to expose. *)
Definition allow_list : list string :=
  ["df"; "pd"; "px"; "np"; "re"; "dt"; "go"].

(** ** Effects: the calls a session makes *)

Inductive node :=
| START
| Plan_Task
| Execute_Task
| Code_Execution
| Format_Result
| END.

#[global] Instance node_eq_dec : EqDecision node.
Proof. solve_decision. Defined.

(** The log of a session: the nodes entered, the requests sent to the model
    with what came back, and the sources handed to [exec]. *)
Record Log := mkLog {
  node_calls : list node;
  llm_calls : list (llm_request * result string);
  exec_calls : list string
}.

Definition empty_log : Log := mkLog [] [] [].

Definition M (A : Type) : Type := Log -> Log * result A.

Definition ret {A} (a : A) : M A := fun w => (w, Ok a).

Definition raise {A} (e : exn) : M A := fun w => (w, Raise e).

Definition bind {A B} (m : M A) (k : A -> M B) : M B :=
  fun w =>
    match m w with
    | (w', Ok a) => k a w'
    | (w', Raise e) => (w', Raise e)
    end.

Notation "x <- m ;; k" := (bind m (fun x => k))
  (at level 20, m at level 99, k at level 200, only parsing).

(** [d[key]] on a dictionary field. *)
Definition getitem {A} (key : string) (field : option A) : M A :=
  match field with
  | Some a => ret a
  | None => raise (KeyError key)
  end.

(** Reading a local variable of the running function. *)
Definition local {A} (name : string) (var : option A) : M A :=
  match var with
  | Some a => ret a
  | None => raise (UnboundLocalError name)
  end.

Definition enter (n : node) : M unit :=
  fun w => (mkLog (node_calls w ++ [n]) (llm_calls w) (exec_calls w), Ok tt).

(** ** Sample sessions *)

(** Modelled from the spec: the state a session starts from (the caller of
    the compiled graph is not part of the sources at hand): the question is
    set, there is no error, no attempt has been made; the other keys are
    absent. *)
Definition initial_state (q : string) : State :=
  mkState (Some q) None None (Some ErrNone) (Some 0) None None.

Definition sample_df : DataFrame :=
  mkDataFrame "|    | city   |   sales |"
              ["city"; "sales"]
              [("city", "object"); ("sales", "int64")].

(** A model that writes the given sources, one per synthesis request (the
    request with index 0 is the plan request). *)
Definition llm_writes (codes : list string) (i : nat) (req : llm_request)
  : result string :=
  match req with
  | PlanRequest _ _ _ _ _ => Ok "Sum the sales column."
  | FormatRequest _ _ _ => Ok "The total is 10."
  | CodeRequest _ _ _ _ _ _ | RepairRequest _ =>
      Ok (nth (i - 1)%nat codes "pass")
  end.

(** What Python does with a handful of sources on [sample_df]. *)
Definition python_on (i : nat) (source : string)
    (namespace : gmap string host_object) : result (gmap string pyval) :=
  if String.eqb source "output_dict = {'total': 10}" then
    Ok {["output_dict" := VDict [("total", VInt 10)]]}
  else if String.eqb source "output_dict = None" then
    Ok {["output_dict" := VNone]}
  else if String.eqb source "total = 10" then
    Ok {["total" := VInt 10]}
  else if String.eqb source "pass" then
    Ok ∅
  else if String.eqb source "assert len(df) == 0" then
    Raise (mkExn "AssertionError" true EmptyString)
  else if String.eqb source "output_dict = 1 / 0" then
    Raise (mkExn "ZeroDivisionError" true "division by zero")
  else if String.eqb source "raise SystemExit" then
    Raise (mkExn "SystemExit" false EmptyString)
  else
    Raise (mkExn "SyntaxError" true "invalid syntax").


(** A model that is down at the request with index [k] and writes [codes]
    otherwise. *)
Definition llm_down_at (k : nat) (codes : list string) (i : nat)
    (req : llm_request) : result string :=
  if (i =? k)%nat
  then Raise (mkExn "TimeoutError" true "The model did not answer.")
  else llm_writes codes i req.


(** Whether a request is a repair request. *)
Definition is_repair (req : llm_request) : bool :=
  match req with
  | RepairRequest _ => true
  | _ => false
  end.

(** Whether [error] holds a text, whether [output] holds a value, and
    whether exactly one of the two does. *)
Definition error_set (s : State) : bool :=
  match error s with
  | Some (ErrText _) => true
  | _ => false
  end.

Definition output_set (s : State) : bool := negb (no_output s).

Definition exactly_one_set (s : State) : bool :=
  xorb (error_set s) (output_set s).

(** Lookup in a list of pairs, for the edge tables of the graph. *)
Fixpoint assoc {K V} `{EqDecision K} (k : K) (l : list (K * V)) : option V :=
  match l with
  | [] => None
  | (k', v) :: l' => if decide (k = k') then Some v else assoc k l'
  end.

(** How many times node [n] occurs in a list of entered nodes. *)
Definition count_node (n : node) (l : list node) : nat :=
  length (filter (eq n) l).

(** The number of times the code synthesizer was entered. *)
Definition attempts (w : Log) : Z :=
  Z.of_nat (count_node Execute_Task (node_calls w)).

(** The dictionaries the nodes return, named for the statements below. *)
Definition plan_update (p : string) : State :=
  mkState None (Some p) None None None None None.

Definition code_update (final_code : string) (n : Z) : State :=
  mkState None None (Some final_code) None (Some (n + 1)) None None.

Definition failure_update (cd txt : string) : State :=
  mkState None None (Some cd) (Some (ErrText txt)) None None None.

Definition success_update (v : pyval) : State :=
  mkState None None None (Some ErrNone) None (Some v) None.

Definition answer_update (a : string) : State :=
  mkState None None None None None None (Some a).

(** The error text an execution attempt reports, if it reports one: the
    description of an exception of class [Exception], or the missing
    result variable. *)
Definition attempt_failed (res : result (gmap string pyval)) : option string :=
  match res with
  | Raise e => if isinstance_Exception e then Some (exn_str e) else None
  | Ok locals =>
      match locals !! "output_dict" with
      | None => Some "Missing output_dict"
      | Some _ => None
      end
  end.

(** The source an exchange with the model produced: the reply to a code or
    repair request; and the sources a log holds, in order. *)
Definition synthesized_code (call : llm_request * result string)
  : option string :=
  match call with
  | (CodeRequest _ _ _ _ _ _, Ok r) | (RepairRequest _, Ok r) => Some r
  | _ => None
  end.

Definition synthesized (w : Log) : list string :=
  omap synthesized_code (llm_calls w).

Section Workflow.

(** The language model: what the [i]-th request of a session returns, the
    content of the reply or the [final_code] of the structured reply, or the
    exception the call raises. *)
Variable llm : nat -> llm_request -> result string.

(** Running a source text: what the [i]-th [exec] of a session does with
    the source in the namespace it is given, the names the source binds at
    top level or the exception it raises.  A source that never returns is
    outside the model: nothing in the workflow bounds it. *)
Variable py_exec :
  nat -> string -> gmap string host_object -> result (gmap string pyval).

(** The dataset captured by [create_workflow]. *)
Variable df : DataFrame.

(** The prompts of [src/prompts/system_prompts]. *)
Variables TASK_PLANNER_PROMPT PYTHON_CODE_PROMPT FORMAT_RESULT_PROMPT : string.

(** Whether the graph library hands the router the session's own dictionary
    (so that an assignment inside [retry_code] is seen afterwards) or a
    copy of it. *)
Variable router_shares_state : bool.

Definition invoke_llm (req : llm_request) : M string :=
  fun w =>
    let r := llm (length (llm_calls w)) req in
    (mkLog (node_calls w) (llm_calls w ++ [(req, r)]) (exec_calls w), r).

(** [exec(source, globals, locals)]; the value is [locals] afterwards. *)
Definition exec_ (source : string) (globals : gmap string host_object)
    (locals : gmap string pyval) : M (gmap string pyval) :=
  fun w =>
    (mkLog (node_calls w) (llm_calls w) (exec_calls w ++ [source]),
     match py_exec (length (exec_calls w)) source (exec_namespace globals) with
     | Ok bound => Ok (bound ∪ locals)
     | Raise e => Raise e
     end).

(** ** The nodes *)

Definition plan_task (state : State) : M State :=
  let '(data_frame_preview, available_columns, column_data_types) :=
    df_schema_preview df in
  user_question <- getitem "user_query" (user_query state) ;;
  content <- invoke_llm
               (PlanRequest TASK_PLANNER_PROMPT data_frame_preview
                            available_columns column_data_types
                            user_question) ;;
  ret (mkState None (Some content) None None None None None).

Definition execute_task (state : State) : M State :=
  err <- getitem "error" (error state) ;;
  if truthy err then
    code_ <- getitem "code" (code state) ;;
    task_plan_ <- getitem "task_plan" (task_plan state) ;;
    final_code <- invoke_llm
                    (RepairRequest (repair_prompt err code_ task_plan_)) ;;
    iterations_ <- getitem "iterations" (iterations state) ;;
    ret (mkState None None (Some final_code) None (Some (iterations_ + 1))
                 None None)
  else
    let '(data_frame_preview, available_columns, column_data_types) :=
      df_schema_preview df in
    task_plan_ <- getitem "task_plan" (task_plan state) ;;
    user_question <- getitem "user_query" (user_query state) ;;
    final_code <- invoke_llm
                    (CodeRequest PYTHON_CODE_PROMPT data_frame_preview
                                 available_columns column_data_types
                                 task_plan_ user_question) ;;
    iterations_ <- getitem "iterations" (iterations state) ;;
    ret (mkState None None (Some final_code) None (Some (iterations_ + 1))
                 None None).

(** The [except Exception as e] clause of [execute_with_exec], entered with
    the local variables [code] and [iterations] as the [try] block left
    them: an exception outside [Exception] is not caught; the handler
    reads [iterations] for its message, then [code] for the dictionary it
    returns. *)
Definition except_Exception (code_ : option string) (iterations_ : option Z)
    (e : exn) : M State :=
  if isinstance_Exception e then
    shown <- local "iterations" iterations_ ;;
    c <- local "code" code_ ;;
    ret (mkState None None (Some c) (Some (ErrText (exn_str e))) None
                 None None)
  else raise e.

Definition execute_with_exec (state : State) : M State :=
  match code state with
  | None => except_Exception None None (KeyError "code")
  | Some code_ =>
    match iterations state with
    | None => except_Exception (Some code_) None (KeyError "iterations")
    | Some iterations_ =>
      fun w =>
        match exec_ code_ exec_globals exec_locals w with
        | (w', Raise e) =>
            except_Exception (Some code_) (Some iterations_) e w'
        | (w', Ok locals) =>
            match locals !! "output_dict" with
            | None =>
                except_Exception (Some code_) (Some iterations_)
                                 (ValueError "Missing output_dict") w'
            | Some v =>
                ret (mkState None None None (Some ErrNone) None (Some v)
                             None) w'
            end
        end
    end
  end.

(** The router: the label it returns and the dictionary it was handed,
    as the router leaves it. *)
Definition retry_code (state : State) : result (State * string) :=
  match error state with
  | None => Raise (KeyError "error")
  | Some err =>
    match iterations state with
    | None => Raise (KeyError "iterations")
    | Some iterations_ =>
      if is_None err then Ok (state, "END")
      else if iterations_ <? 3 then Ok (state, "RETRY")
      else Ok (set_output state VNone, "STOP")
    end
  end.

Definition format_result (state : State) : M State :=
  user_question <- getitem "user_query" (user_query state) ;;
  result_ <- getitem "output" (output state) ;;
  content <- invoke_llm
               (FormatRequest FORMAT_RESULT_PROMPT user_question result_) ;;
  ret (mkState None None None None None None (Some content)).

(** ** The graph *)

Definition node_function (n : node) : option (State -> M State) :=
  match n with
  | Plan_Task => Some plan_task
  | Execute_Task => Some execute_task
  | Code_Execution => Some execute_with_exec
  | Format_Result => Some format_result
  | START | END => None
  end.

Definition edges : list (node * node) :=
  [(START, Plan_Task); (Plan_Task, Execute_Task);
   (Execute_Task, Code_Execution); (Format_Result, END)].

Definition path_map : list (string * node) :=
  [("RETRY", Execute_Task); ("STOP", END); ("END", Format_Result)].

(** Where the graph goes after node [n] has run and left the state [s]. *)
Definition successor (n : node) (s : State) : result (State * node) :=
  match n with
  | Code_Execution =>
      match retry_code s with
      | Raise e => Raise e
      | Ok (s', label) =>
          match assoc label path_map with
          | Some target =>
              Ok (if router_shares_state then s' else s, target)
          | None => Raise (KeyError label)
          end
      end
  | _ =>
      match assoc n edges with
      | Some target => Ok (s, target)
      | None => Raise (ValueError "no outgoing edge")
      end
  end.

Record config := mkConfig {
  at_node : node;
  st : State;
  log : Log
}.

Inductive step_result :=
| Next (c : config)
| Halt (s : State) (w : Log)
| Crash (e : exn) (w : Log).

(** Running the node of the configuration and merging what it returns. *)
Definition run_node (n : node) (s : State) : M State :=
  match node_function n with
  | Some f =>
      entered <- enter n ;;
      upd <- f s ;;
      ret (dict_update s upd)
  | None => ret s
  end.

Definition step (c : config) : step_result :=
  match at_node c with
  | END => Halt (st c) (log c)
  | n =>
      match run_node n (st c) (log c) with
      | (w, Raise e) => Crash e w
      | (w, Ok s) =>
          match successor n s with
          | Raise e => Crash e w
          | Ok (s', target) => Next (mkConfig target s' w)
          end
      end
  end.

Inductive outcome :=
| Finished (s : State) (w : Log)
| Crashed (e : exn) (w : Log)
| RecursionLimit (w : Log).

Fixpoint run (fuel : nat) (c : config) : outcome :=
  match fuel with
  | O => RecursionLimit (log c)
  | S fuel' =>
      match step c with
      | Next c' => run fuel' c'
      | Halt s w => Finished s w
      | Crash e w => Crashed e w
      end
  end.

(** The default bound of the graph library on the steps of one run. *)
Definition recursion_limit : nat := 25.

Definition start (s0 : State) : config := mkConfig START s0 empty_log.

(** [workflow.compile().invoke(s0)]. *)
Definition invoke (s0 : State) : outcome := run recursion_limit (start s0).

(** The configuration after [k] steps, or the last one before the run
    ended. *)
Fixpoint steps (k : nat) (c : config) : config :=
  match k with
  | O => c
  | S k' =>
      match step c with
      | Next c' => steps k' c'
      | _ => c
      end
  end.

(** The configurations a session passes through. *)
Inductive reachable (s0 : State) : config -> Prop :=
| reach_start : reachable s0 (start s0)
| reach_step c c' : reachable s0 c -> step c = Next c' -> reachable s0 c'.

(** The request [plan_task] sends for the question [q]. *)
Definition plan_request (q : string) : llm_request :=
  PlanRequest TASK_PLANNER_PROMPT (df_schema_preview df).1.1
              (df_schema_preview df).1.2 (df_schema_preview df).2 q.

(** The request [execute_task] sends from state [s] whose error is [err]. *)
Definition synthesis_request (err : err_val) (s : State)
  : option llm_request :=
  if truthy err then
    match code s, task_plan s with
    | Some cd, Some tp => Some (RepairRequest (repair_prompt err cd tp))
    | _, _ => None
    end
  else
    match task_plan s, user_query s with
    | Some tp, Some q =>
        Some (CodeRequest PYTHON_CODE_PROMPT (df_schema_preview df).1.1
                          (df_schema_preview df).1.2 (df_schema_preview df).2
                          tp q)
    | _, _ => None
    end.

(** The log a step leaves, whatever its result. *)
Definition result_log (r : step_result) : Log :=
  match r with
  | Next c => log c
  | Halt _ w => w
  | Crash _ w => w
  end.

(** The label a call of the router returned. *)
Definition route_label (r : result (State * string)) : option string :=
  match r with
  | Ok (_, label) => Some label
  | Raise _ => None
  end.

(** The invariant of the attempt budget: [iterations] counts the runs of
    the code synthesizer, and its range at each node. *)
Definition budget_inv (c : config) : Prop :=
  exists k, iterations (st c) = Some k /\ k = attempts (log c) /\
    match at_node c with
    | START | Plan_Task => k = 0
    | Execute_Task => 0 <= k < 3
    | Code_Execution | Format_Result | END => 1 <= k <= 3
    end.

(** A bound on the steps a configuration has left. *)
Definition measure (c : config) : nat :=
  let k := Z.to_nat (default 0 (iterations (st c))) in
  match at_node c with
  | START => 10
  | Plan_Task => 9
  | Execute_Task => 2 + 2 * (3 - k)
  | Code_Execution => 3 + 2 * (3 - k)
  | Format_Result => 2
  | END => 1
  end.

(** The invariant of [error] and [output]: no result before an attempt has
    succeeded, and no error once one has. *)
Definition exclusive_inv (c : config) : Prop :=
  match at_node c with
  | START | Plan_Task | Execute_Task | Code_Execution =>
      no_output (st c) = true
  | Format_Result | END =>
      no_output (st c) = true \/ error (st c) = Some ErrNone
  end.

(** The request the node of a configuration sends to the model, if it
    gets as far as sending one. *)
Definition request_of (c : config) : option llm_request :=
  match at_node c with
  | Plan_Task =>
      match user_query (st c) with
      | Some q => Some (plan_request q)
      | None => None
      end
  | Execute_Task =>
      match error (st c) with
      | Some err => synthesis_request err (st c)
      | None => None
      end
  | Format_Result =>
      match user_query (st c), output (st c) with
      | Some q, Some v => Some (FormatRequest FORMAT_RESULT_PROMPT q v)
      | _, _ => None
      end
  | START | Code_Execution | END => None
  end.

(** An exchange with the model that is built on the plan [p]: a code
    request carries [p] as its execution plan, a repair request is the
    repair text of some error and code with [p]. *)
Definition uses_plan (p : string) (call : llm_request * result string)
  : Prop :=
  match call.1 with
  | PlanRequest _ _ _ _ _ => False
  | CodeRequest _ _ _ _ plan _ => plan = p
  | RepairRequest t => exists err cd, t = repair_prompt err cd p
  | FormatRequest _ _ _ => True
  end.

(** The invariant of the plan: written by the first exchange of the
    session and used by all later ones. *)
Definition plan_inv (c : config) : Prop :=
  match at_node c with
  | START | Plan_Task => node_calls (log c) = [] /\ llm_calls (log c) = []
  | _ =>
      exists q p rest,
        llm_calls (log c) = (plan_request q, Ok p) :: rest /\
        task_plan (st c) = Some p /\
        count_node Plan_Task (node_calls (log c)) = 1%nat /\
        Forall (uses_plan p) rest
  end.


(** [k] rounds of code synthesis and execution. *)
Definition rounds (k : nat) : list node :=
  concat (replicate k [Execute_Task; Code_Execution]).

(** The nodes a session has entered, by the node it is at: the plan node
    first, then rounds of synthesis and execution, the formatter last. *)
Definition shape_inv (c : config) : Prop :=
  match at_node c with
  | START | Plan_Task => node_calls (log c) = []
  | Execute_Task => exists k, node_calls (log c) = Plan_Task :: rounds k
  | Code_Execution =>
      exists k, node_calls (log c) = Plan_Task :: rounds k ++ [Execute_Task]
  | Format_Result => exists k, node_calls (log c) = Plan_Task :: rounds (S k)
  | END =>
      exists k,
        node_calls (log c) = Plan_Task :: rounds (S k) \/
        node_calls (log c) = Plan_Task :: rounds (S k) ++ [Format_Result]
  end.

(** How the lengths of the three logs relate: one request per completed
    plan, synthesis or format node, one source per completed execution. *)
Definition counts_inv (c : config) : Prop :=
  let n_plan := count_node Plan_Task (node_calls (log c)) in
  let n_synth := count_node Execute_Task (node_calls (log c)) in
  let n_exec := count_node Code_Execution (node_calls (log c)) in
  let n_format := count_node Format_Result (node_calls (log c)) in
  length (node_calls (log c)) = (n_plan + n_synth + n_exec + n_format)%nat /\
  length (llm_calls (log c)) = (n_plan + n_synth + n_format)%nat /\
  length (exec_calls (log c)) = n_exec /\
  match at_node c with
  | START | Plan_Task =>
      n_plan = 0%nat /\ n_synth = 0%nat /\ n_exec = 0%nat /\ n_format = 0%nat
  | Execute_Task | Format_Result =>
      n_plan = 1%nat /\ n_exec = n_synth /\ n_format = 0%nat
  | Code_Execution =>
      n_plan = 1%nat /\ S n_exec = n_synth /\ n_format = 0%nat
  | END => n_plan = 1%nat /\ n_exec = n_synth /\ (n_format <= 1)%nat
  end.

(** The value the last executed source has bound to [output_dict]. *)
Definition last_result (w : Log) (v : pyval) : Prop :=
  exists sources cd locals,
    exec_calls w = sources ++ [cd] /\
    py_exec (length sources) cd (exec_namespace exec_globals) = Ok locals /\
    locals !! "output_dict" = Some v.

(** The formatter is entered only after an attempt that bound
    [output_dict], and what it leaves. *)
Definition format_inv (c : config) : Prop :=
  let n_format := count_node Format_Result (node_calls (log c)) in
  match at_node c with
  | START | Plan_Task | Execute_Task | Code_Execution => n_format = 0%nat
  | Format_Result =>
      n_format = 0%nat /\ error (st c) = Some ErrNone /\
      exists v, output (st c) = Some v /\ last_result (log c) v
  | END =>
      n_format = 0%nat \/
      (n_format = 1%nat /\ error (st c) = Some ErrNone /\
       exists q v a,
         user_query (st c) = Some q /\ output (st c) = Some v /\
         last_result (log c) v /\
         answer (st c) = Some a /\
         last (llm_calls (log c))
           = Some (FormatRequest FORMAT_RESULT_PROMPT q v, Ok a))
  end.

(** Each field of the state is as the session found it until the node
    that writes it has run. *)
Definition frame_inv (s0 : State) (c : config) : Prop :=
  user_query (st c) = user_query s0 /\
  (count_node Plan_Task (node_calls (log c)) = 0%nat ->
   task_plan (st c) = task_plan s0) /\
  (count_node Execute_Task (node_calls (log c)) = 0%nat ->
   code (st c) = code s0 /\ iterations (st c) = iterations s0) /\
  (count_node Code_Execution (node_calls (log c)) = 0%nat ->
   error (st c) = error s0 /\ output (st c) = output s0) /\
  (count_node Format_Result (node_calls (log c)) = 0%nat ->
   answer (st c) = answer s0).

(** The sources executed are the sources synthesized, the last of them
    still waiting at the execution node. *)
Definition sources_inv (c : config) : Prop :=
  match at_node c with
  | Code_Execution =>
      exists cd,
        code (st c) = Some cd /\
        synthesized (log c) = exec_calls (log c) ++ [cd]
  | _ => synthesized (log c) = exec_calls (log c)
  end.


(** * Properties *)

(** ** The nodes, one equation each *)

#[local] Arguments assoc : simpl never.
#[local] Arguments exec_ : simpl never.
#[local] Arguments count_node : simpl never.

Lemma path_map_RETRY : assoc "RETRY" path_map = Some Execute_Task.
Proof. by vm_compute. Qed.

Lemma path_map_STOP : assoc "STOP" path_map = Some END.
Proof. by vm_compute. Qed.

Lemma path_map_END : assoc "END" path_map = Some Format_Result.
Proof. by vm_compute. Qed.

Lemma exec_fresh_locals source w :
  exec_ source exec_globals exec_locals w =
  (mkLog (node_calls w) (llm_calls w) (exec_calls w ++ [source]),
   py_exec (length (exec_calls w)) source (exec_namespace exec_globals)).
Proof.
  unfold exec_, exec_locals. f_equal.
  destruct (py_exec _ _ _) as [bound|e]; [|done].
  by rewrite (right_id_L ∅ (∪)).
Qed.

Lemma execute_with_exec_eq s w cd n :
  code s = Some cd -> iterations s = Some n ->
  execute_with_exec s w =
  (mkLog (node_calls w) (llm_calls w) (exec_calls w ++ [cd]),
   match py_exec (length (exec_calls w)) cd (exec_namespace exec_globals) with
   | Ok locals =>
       match locals !! "output_dict" with
       | Some v => Ok (success_update v)
       | None => Ok (failure_update cd "Missing output_dict")
       end
   | Raise e =>
       if isinstance_Exception e then Ok (failure_update cd (exn_str e))
       else Raise e
   end).
Proof.
  intros Hcd Hit. unfold execute_with_exec. rewrite Hcd, Hit.
  rewrite exec_fresh_locals.
  destruct (py_exec _ _ _) as [locals|e].
  - destruct (locals !! "output_dict"); reflexivity.
  - unfold except_Exception. destruct (isinstance_Exception e); reflexivity.
Qed.

Lemma execute_with_exec_unbound s w :
  code s = None \/ iterations s = None ->
  execute_with_exec s w = (w, Raise (UnboundLocalError "iterations")).
Proof.
  unfold execute_with_exec.
  intros [H|H]; rewrite H; [reflexivity|].
  destruct (code s); reflexivity.
Qed.

Lemma retry_code_eq s err n :
  error s = Some err -> iterations s = Some n ->
  retry_code s =
  Ok (if is_None err then (s, "END")
      else if n <? 3 then (s, "RETRY")
      else (set_output s VNone, "STOP")).
Proof.
  intros He Hn. unfold retry_code. rewrite He, Hn.
  destruct (is_None err); [done|]. by destruct (n <? 3).
Qed.

Lemma successor_Code_Execution s err n :
  error s = Some err -> iterations s = Some n ->
  successor Code_Execution s =
  Ok (if is_None err then (s, Format_Result)
      else if n <? 3 then (s, Execute_Task)
      else (if router_shares_state then set_output s VNone else s, END)).
Proof.
  intros He Hn. unfold successor. rewrite (retry_code_eq s err n He Hn).
  destruct (is_None err).
  - rewrite path_map_END. by destruct router_shares_state.
  - destruct (n <? 3).
    + rewrite path_map_RETRY. by destruct router_shares_state.
    + by rewrite path_map_STOP.
Qed.

(** ** One step of the graph, node by node *)

Ltac unfold_nodes :=
  unfold step, run_node, successor, node_function, plan_task, execute_task,
    format_result, invoke_llm, getitem, local, enter, bind, ret, raise in *.

Ltac crunch := repeat (case_match; simplify_eq/=).

Lemma step_START c :
  at_node c = START -> step c = Next (mkConfig Plan_Task (st c) (log c)).
Proof. intros Hn. unfold step. rewrite Hn. reflexivity. Qed.

Lemma step_END c : at_node c = END -> step c = Halt (st c) (log c).
Proof. intros Hn. unfold step. by rewrite Hn. Qed.

Lemma step_Plan_Task c c' :
  at_node c = Plan_Task -> step c = Next c' ->
  exists q p,
    user_query (st c) = Some q /\
    llm (length (llm_calls (log c))) (plan_request q) = Ok p /\
    c' = mkConfig Execute_Task
           (dict_update (st c) (plan_update p))
           (mkLog (node_calls (log c) ++ [Plan_Task])
                  (llm_calls (log c) ++ [(plan_request q, Ok p)])
                  (exec_calls (log c))).
Proof.
  intros Hn Hs. destruct c as [n s w]. simpl in *. subst n.
  unfold plan_request. unfold_nodes. simpl in *. crunch. eauto.
Qed.

Lemma step_Execute_Task c c' :
  at_node c = Execute_Task -> step c = Next c' ->
  exists err n req r,
    error (st c) = Some err /\ iterations (st c) = Some n /\
    synthesis_request err (st c) = Some req /\
    llm (length (llm_calls (log c))) req = Ok r /\
    c' = mkConfig Code_Execution
           (dict_update (st c) (code_update r n))
           (mkLog (node_calls (log c) ++ [Execute_Task])
                  (llm_calls (log c) ++ [(req, Ok r)])
                  (exec_calls (log c))).
Proof.
  intros Hn Hs. destruct c as [nd s w]. simpl in *. subst nd.
  unfold synthesis_request. unfold_nodes. simpl in *.
  destruct (error s) as [err|] eqn:He; simpl in *; [|crunch].
  destruct (truthy err) eqn:Ht; simpl in *; crunch;
    do 4 eexists; (split; [done|]); (split; [done|]); rewrite Ht;
    (split; [reflexivity|]); (split; [eassumption|reflexivity]).
Qed.

Lemma step_Code_Execution c c' :
  at_node c = Code_Execution -> step c = Next c' ->
  exists cd n,
    code (st c) = Some cd /\ iterations (st c) = Some n /\
    log c' = mkLog (node_calls (log c) ++ [Code_Execution])
                   (llm_calls (log c)) (exec_calls (log c) ++ [cd]) /\
    let res := py_exec (length (exec_calls (log c))) cd
                       (exec_namespace exec_globals) in
    ((exists locals v,
         res = Ok locals /\ locals !! "output_dict" = Some v /\
         at_node c' = Format_Result /\
         st c' = dict_update (st c) (success_update v))
     \/
     (exists txt,
         attempt_failed res = Some txt /\
         let s1 := dict_update (st c) (failure_update cd txt) in
         (n < 3 /\ at_node c' = Execute_Task /\ st c' = s1) \/
         (3 <= n /\ at_node c' = END /\
          st c' = if router_shares_state then set_output s1 VNone else s1))).
Proof.
  intros Hn Hs. destruct c as [nd s w]. simpl in *. subst nd.
  unfold step, run_node, node_function, bind, enter, ret in Hs.
  cbn [at_node st log] in Hs.
  destruct (code s) as [cd|] eqn:Hcd; cycle 1.
  { rewrite execute_with_exec_unbound in Hs by auto. done. }
  destruct (iterations s) as [n|] eqn:Hit; cycle 1.
  { rewrite execute_with_exec_unbound in Hs by auto. done. }
  rewrite (execute_with_exec_eq _ _ cd n) in Hs by (cbn; done).
  cbn [node_calls llm_calls exec_calls] in Hs.
  exists cd, n. split; [done|]. split; [done|].
  destruct (py_exec _ _ _) as [locals|e] eqn:Hres; cbn [attempt_failed].
  - destruct (locals !! "output_dict") as [v|] eqn:Hv.
    + rewrite (successor_Code_Execution _ ErrNone n) in Hs by (cbn; done).
      cbn in Hs. simplify_eq. split; [done|]. left. eauto 10.
    + rewrite (successor_Code_Execution _ (ErrText "Missing output_dict") n)
        in Hs by (cbn; done).
      cbn [is_None] in Hs.
      destruct (n <? 3) eqn:Hlt; simplify_eq; (split; [done|]);
        right; exists "Missing output_dict"; (split; [done|]);
        [left|right]; split; try lia; done.
  - destruct (isinstance_Exception e) eqn:He; [|done].
    rewrite (successor_Code_Execution _ (ErrText (exn_str e)) n)
      in Hs by (cbn; done).
    cbn [is_None] in Hs.
    destruct (n <? 3) eqn:Hlt; simplify_eq; (split; [done|]);
      right; exists (exn_str e); (split; [done|]);
      [left|right]; split; try lia; done.
Qed.

Lemma step_Format_Result c c' :
  at_node c = Format_Result -> step c = Next c' ->
  exists q v a,
    user_query (st c) = Some q /\ output (st c) = Some v /\
    c' = mkConfig END
           (dict_update (st c) (answer_update a))
           (mkLog (node_calls (log c) ++ [Format_Result])
                  (llm_calls (log c)
                     ++ [(FormatRequest FORMAT_RESULT_PROMPT q v, Ok a)])
                  (exec_calls (log c))).
Proof.
  intros Hn Hs. destruct c as [n s w]. simpl in *. subst n.
  unfold_nodes. simpl in *. crunch. eauto 10.
Qed.

Lemma step_node_calls c :
  node_calls (result_log (step c)) =
  (node_calls (log c) ++
     match node_function (at_node c) with
     | Some _ => [at_node c]
     | None => []
     end)%list.
Proof.
  destruct c as [nd s w]. destruct nd; cbn [at_node log node_function].
  - rewrite step_START by done. cbn. by rewrite app_nil_r.
  - unfold_nodes. simpl. crunch; done.
  - unfold_nodes. simpl. crunch; done.
  - unfold step, run_node, node_function, bind, enter, ret.
    cbn [at_node st log].
    destruct (code s) as [cd|] eqn:Hcd; cycle 1.
    { rewrite execute_with_exec_unbound by auto. done. }
    destruct (iterations s) as [n|] eqn:Hit; cycle 1.
    { rewrite execute_with_exec_unbound by auto. done. }
    rewrite (execute_with_exec_eq _ _ cd n) by (cbn; done).
    cbn [node_calls llm_calls exec_calls]. crunch; done.
  - unfold_nodes. simpl. crunch; done.
  - cbn. by rewrite app_nil_r.
Qed.

(** ** The execution step *)

(** C6. When the source runs to its end without binding [output_dict], the
    execution step returns the error text of the missing result variable
    together with the unchanged code, writes no [output], and the router does
    not send the session to the formatter. *)
Theorem missing_output_is_error (s : State) (w : Log) (cd : string) (n : Z)
    (locals : gmap string pyval) :
  code s = Some cd -> iterations s = Some n ->
  py_exec (length (exec_calls w)) cd (exec_namespace exec_globals)
    = Ok locals ->
  locals !! "output_dict" = None ->
  let s' := dict_update s (failure_update cd "Missing output_dict") in
  (execute_with_exec s w).2 = Ok (failure_update cd "Missing output_dict") /\
  error s' = Some (ErrText "Missing output_dict") /\
  output s' = output s /\
  code s' = Some cd /\
  exists s'' target,
    successor Code_Execution s' = Ok (s'', target) /\
    target <> Format_Result.
Proof.
  intros Hcd Hit Hres Hv s'.
  rewrite (execute_with_exec_eq s w cd n Hcd Hit), Hres, Hv.
  repeat split.
  assert (Hit' : iterations s' = Some n) by (subst s'; cbn; by rewrite Hit).
  rewrite (successor_Code_Execution s' (ErrText "Missing output_dict") n)
    by done.
  cbn. destruct (n <? 3); eauto.
Qed.

(** C9. The dictionary of globals the execution step builds binds the
    seven names [df], [pd], [px], [np], [re], [dt] and [go] and nothing
    else, and the dictionary of locals is empty; in the namespace the source
    runs in, [exec] has added the binding [__builtins__], so the source
    sees these eight names.  That namespace is the one every execution
    attempt runs the code of the state in. *)
Theorem exec_namespace_bindings :
  dom exec_globals = list_to_set allow_list /\
  exec_locals = ∅ /\
  dom (exec_namespace exec_globals)
    = list_to_set ("__builtins__" :: allow_list) /\
  exec_namespace exec_globals !! "__builtins__" = Some (HModule "builtins") /\
  (forall s w cd n,
      code s = Some cd -> iterations s = Some n ->
      exec_calls (execute_with_exec s w).1 = exec_calls w ++ [cd] /\
      attempt_failed (py_exec (length (exec_calls w)) cd
                              (exec_namespace exec_globals))
        = match (execute_with_exec s w).2 with
          | Ok upd =>
              match error upd with
              | Some (ErrText txt) => Some txt
              | _ => None
              end
          | Raise _ => None
          end).
Proof.
  assert (Hb : exec_globals !! "__builtins__" = None) by by vm_compute.
  assert (Hd : dom exec_globals = list_to_set allow_list).
  { unfold exec_globals, allow_list. rewrite !dom_insert_L, dom_empty_L.
    cbn. set_solver. }
  split; [done|]. split; [done|].
  unfold exec_namespace at 1 2. rewrite Hb. split; [|split].
  - rewrite dom_insert_L, Hd. reflexivity.
  - apply lookup_insert_eq.
  - intros s w cd n Hcd Hit.
    rewrite (execute_with_exec_eq s w cd n Hcd Hit). cbn [fst snd exec_calls].
    split; [done|]. unfold attempt_failed.
    destruct (py_exec _ _ _) as [locals|e].
    + by destruct (locals !! "output_dict").
    + by destruct (isinstance_Exception e).
Qed.

(** C10. In a state that has [code] and [iterations], the execution step
    returns a dictionary whenever the source raises nothing outside the
    class [Exception]: the result with [error] cleared on success, and
    otherwise the text of the exception (or of the missing result variable)
    in [error] with [code] as it was.  An exception outside [Exception]
    is raised to the driver. *)
Theorem execute_with_exec_catches (s : State) (w : Log) (cd : string)
    (n : Z) :
  code s = Some cd -> iterations s = Some n ->
  let res := py_exec (length (exec_calls w)) cd
                     (exec_namespace exec_globals) in
  (forall e, res = Raise e -> isinstance_Exception e = true ->
     (execute_with_exec s w).2 = Ok (failure_update cd (exn_str e)) /\
     error (dict_update s (failure_update cd (exn_str e)))
       = Some (ErrText (exn_str e)) /\
     code (dict_update s (failure_update cd (exn_str e))) = Some cd) /\
  (forall locals, res = Ok locals -> locals !! "output_dict" = None ->
     (execute_with_exec s w).2
       = Ok (failure_update cd "Missing output_dict")) /\
  (forall locals v, res = Ok locals -> locals !! "output_dict" = Some v ->
     (execute_with_exec s w).2 = Ok (success_update v)) /\
  (forall e, res = Raise e -> isinstance_Exception e = false ->
     (execute_with_exec s w).2 = Raise e) /\
  ((forall e, res = Raise e -> isinstance_Exception e = true) ->
   exists upd, (execute_with_exec s w).2 = Ok upd).
Proof.
  intros Hcd Hit res.
  rewrite (execute_with_exec_eq s w cd n Hcd Hit). fold res. cbn [snd].
  split; [|split; [|split; [|split]]].
  - intros e -> He. by rewrite He.
  - intros locals -> Hv. by rewrite Hv.
  - intros locals v -> Hv. by rewrite Hv.
  - intros e -> He. by rewrite He.
  - intros Hall. destruct res as [locals|e] eqn:Hres.
    + destruct (locals !! "output_dict"); eauto.
    + rewrite (Hall e eq_refl). eauto.
Qed.

(** ** The attempt budget *)

Lemma count_node_snoc n l m :
  count_node n (l ++ [m]) =
  (count_node n l + if decide (n = m) then 1 else 0)%nat.
Proof.
  unfold count_node. rewrite filter_app, length_app. f_equal.
  rewrite filter_cons, filter_nil. by destruct (decide (n = m)).
Qed.

Lemma count_node_snoc_eq n l : count_node n (l ++ [n]) = S (count_node n l).
Proof. rewrite count_node_snoc. rewrite decide_True by done. lia. Qed.

Lemma count_node_snoc_ne n l m :
  n <> m -> count_node n (l ++ [m]) = count_node n l.
Proof. intros H. rewrite count_node_snoc. rewrite decide_False by done. lia. Qed.

Ltac count_nodes :=
  repeat (rewrite count_node_snoc_eq
          || rewrite count_node_snoc_ne by done).

Lemma budget_inv_step c c' :
  budget_inv c -> step c = Next c' -> budget_inv c'.
Proof.
  intros (k & Hk & Hatt & Hnode) Hs. unfold budget_inv, attempts in *.
  destruct (at_node c) eqn:Hn.
  - rewrite step_START in Hs by done. simplify_eq. cbn. eauto.
  - apply step_Plan_Task in Hs as (q & p & Hq & Hllm & ->); [|done]. cbn.
    count_nodes. rewrite Hk. exists k. split; [done|]. lia.
  - apply step_Execute_Task in Hs as (err & n & req & r & He & Hi & Hr & Hllm & ->);
      [|done].
    assert (n = k) as -> by congruence.
    cbn. count_nodes. exists (k + 1). split; [done|]. lia.
  - apply step_Code_Execution in Hs as (cd & n & Hcd & Hi & Hlog & Hres);
      [|done].
    cbn zeta in Hres. rewrite Hlog. cbn [log node_calls].
    count_nodes. assert (n = k) as -> by congruence. exists k.
    destruct Hres as [(locals & v & _ & _ & -> & ->)
                     |(txt & _ & [(Hlt & -> & ->)|(Hge & -> & ->)])];
      cbn; rewrite ?Hk; try (split; [done|lia]).
    destruct router_shares_state; cbn; rewrite ?Hk; (split; [done|lia]).
  - apply step_Format_Result in Hs as (q & v & a & _ & _ & ->); [|done].
    cbn. count_nodes. rewrite Hk. exists k. split; [done|]. lia.
  - by rewrite step_END in Hs.
Qed.

Lemma budget_inv_reachable s0 c :
  iterations s0 = Some 0 -> reachable s0 c -> budget_inv c.
Proof.
  intros H0 Hr. induction Hr as [|c c' _ IH Hs].
  - exists 0. by cbn.
  - by eapply budget_inv_step.
Qed.

Lemma step_measure c c' :
  budget_inv c -> step c = Next c' -> (measure c' < measure c)%nat.
Proof.
  intros (k & Hk & Hatt & Hnode) Hs. unfold measure.
  destruct (at_node c) eqn:Hn.
  - rewrite step_START in Hs by done. simplify_eq. cbn. lia.
  - apply step_Plan_Task in Hs as (q & p & Hq & Hllm & ->); [|done]. cbn.
    rewrite Hk. lia.
  - apply step_Execute_Task in Hs as (err & n & req & r & He & Hi & Hr & Hllm & ->);
      [|done].
    assert (n = k) as -> by congruence. cbn. rewrite Hk. cbn. lia.
  - apply step_Code_Execution in Hs as (cd & n & Hcd & Hi & Hlog & Hres);
      [|done].
    cbn zeta in Hres. assert (n = k) as -> by congruence. rewrite Hk.
    destruct Hres as [(locals & v & _ & _ & Hnd & Hst)
                     |(txt & _ & [(Hlt & Hnd & Hst)|(Hge & Hnd & Hst)])];
      rewrite Hnd, ?Hst; cbn; rewrite ?Hk; cbn; lia.
  - apply step_Format_Result in Hs as (q & v & a & _ & _ & ->); [|done].
    cbn. lia.
  - by rewrite step_END in Hs.
Qed.

Lemma measure_pos c : (0 < measure c)%nat.
Proof. unfold measure. destruct (at_node c); lia. Qed.

Lemma run_within_measure fuel c :
  budget_inv c -> (measure c <= fuel)%nat ->
  forall w, run fuel c <> RecursionLimit w.
Proof.
  revert c. induction fuel as [|fuel IH]; intros c Hinv Hm w.
  - pose proof (measure_pos c). lia.
  - cbn. destruct (step c) as [c'| |] eqn:Hs; [|done..].
    apply IH.
    + by eapply budget_inv_step.
    + pose proof (step_measure c c' Hinv Hs). lia.
Qed.

Lemma run_Next fuel c c' : step c = Next c' -> run (S fuel) c = run fuel c'.
Proof. intros H. cbn. by rewrite H. Qed.

(** What a run returns was left by a step from a reachable configuration. *)
Lemma run_reachable s0 fuel c :
  reachable s0 c ->
  match run fuel c with
  | Finished s w =>
      exists c', reachable s0 c' /\ at_node c' = END /\ st c' = s /\ log c' = w
  | Crashed e w => exists c', reachable s0 c' /\ step c' = Crash e w
  | RecursionLimit _ => True
  end.
Proof.
  revert c. induction fuel as [|fuel IH]; intros c Hr; [done|].
  cbn. destruct (step c) as [c'|s w|e w] eqn:Hs.
  - apply IH. by eapply reach_step.
  - exists c. split; [done|]. unfold step in Hs.
    destruct (at_node c) eqn:Hn; try (by simplify_eq);
      repeat case_match; simplify_eq.
  - eauto.
Qed.

Lemma reachable_steps s0 k c : reachable s0 c -> reachable s0 (steps k c).
Proof.
  revert c. induction k as [|k IH]; intros c Hr; [done|].
  cbn. destruct (step c) as [c'| |] eqn:Hs; [|done..].
  apply IH. by eapply reach_step.
Qed.

(** C2. In a session that starts with [iterations] at 0, [iterations] is
    between 0 and 3 in every configuration the session passes through and
    counts the completed runs of the code synthesizer; the run of the graph
    ends within the step bound, and when it finishes [iterations] lies
    between 1 and 3 and is the number of times the code synthesizer was
    entered; a session that is cut short by an exception has entered it at
    most three times as well. *)
Theorem attempt_budget (s0 : State) :
  iterations s0 = Some 0 ->
  (forall c, reachable s0 c ->
     exists k, iterations (st c) = Some k /\ 0 <= k <= 3 /\
               k = attempts (log c)) /\
  match invoke s0 with
  | Finished s w =>
      exists k, iterations s = Some k /\ 1 <= k <= 3 /\ k = attempts w
  | Crashed e w => attempts w <= 3
  | RecursionLimit _ => False
  end.
Proof.
  intros H0. split.
  - intros c Hr. destruct (budget_inv_reachable s0 c H0 Hr) as (k & Hk & Ha & Hn).
    exists k. split; [done|]. split; [|done]. destruct (at_node c); lia.
  - pose proof (run_reachable s0 recursion_limit (start s0) (reach_start s0))
      as Hrun.
    pose proof (run_within_measure recursion_limit (start s0)
                  (budget_inv_reachable s0 _ H0 (reach_start s0))) as Hlim.
    fold (invoke s0) in Hrun, Hlim.
    destruct (invoke s0) as [s w|e w|w].
    + destruct Hrun as (c' & Hr & Hn & <- & <-).
      destruct (budget_inv_reachable s0 c' H0 Hr) as (k & Hk & Ha & Hnode).
      rewrite Hn in Hnode. eauto.
    + destruct Hrun as (c' & Hr & Hs).
      destruct (budget_inv_reachable s0 c' H0 Hr) as (k & Hk & Ha & Hnode).
      pose proof (step_node_calls c') as Hnc. rewrite Hs in Hnc.
      cbn [result_log] in Hnc. unfold attempts in *. rewrite Hnc.
      destruct (at_node c'); cbn [node_function];
        rewrite ?app_nil_r; count_nodes; lia.
    + eapply Hlim; [|done]. unfold recursion_limit. cbn. lia.
Qed.

(** ** The counter and the code *)

(** C8. A step of the code synthesizer, whichever request it sends, leaves
    [iterations] one higher and [code] bound to the reply of the model; a
    step of any other node, the router included, leaves [iterations] as it
    was. *)
Theorem iterations_counts_synthesis (c c' : config) :
  step c = Next c' ->
  (at_node c = Execute_Task ->
     exists n err req r,
       iterations (st c) = Some n /\ error (st c) = Some err /\
       synthesis_request err (st c) = Some req /\
       llm (length (llm_calls (log c))) req = Ok r /\
       iterations (st c') = Some (n + 1) /\
       code (st c') = Some r) /\
  (at_node c <> Execute_Task -> iterations (st c') = iterations (st c)).
Proof.
  intros Hs. split.
  - intros Hn.
    apply step_Execute_Task in Hs
      as (err & n & req & r & He & Hi & Hr & Hllm & ->); [|done].
    exists n, err, req, r. by cbn.
  - intros Hn. destruct (at_node c) eqn:Hnode; [| |done| | |].
    + rewrite step_START in Hs by done. by simplify_eq.
    + by apply step_Plan_Task in Hs as (q & p & Hq & Hllm & ->).
    + apply step_Code_Execution in Hs as (cd & n & Hcd & Hi & Hlog & Hres);
        [|done].
      cbn zeta in Hres.
      destruct Hres as [(locals & v & _ & _ & _ & ->)
                       |(txt & _ & [(_ & _ & ->)|(_ & _ & ->)])];
        try done.
      by destruct router_shares_state.
    + by apply step_Format_Result in Hs as (q & v & a & _ & _ & ->).
    + by rewrite step_END in Hs.
Qed.

(** ** Error and output *)

Lemma exclusive_inv_step c c' :
  exclusive_inv c -> step c = Next c' -> exclusive_inv c'.
Proof.
  unfold exclusive_inv. intros Hinv Hs. destruct (at_node c) eqn:Hn.
  - rewrite step_START in Hs by done. by simplify_eq.
  - by apply step_Plan_Task in Hs as (q & p & Hq & Hllm & ->).
  - by apply step_Execute_Task in Hs
      as (err & n & req & r & He & Hi & Hr & Hllm & ->).
  - apply step_Code_Execution in Hs as (cd & n & Hcd & Hi & Hlog & Hres);
      [|done].
    cbn zeta in Hres.
    destruct Hres as [(locals & v & _ & _ & -> & ->)
                     |(txt & _ & [(_ & -> & ->)|(_ & -> & ->)])];
      [by right|done|].
    left. by destruct router_shares_state.
  - apply step_Format_Result in Hs as (q & v & a & _ & _ & ->); [|done].
    cbn. destruct Hinv; [by left|by right].
  - by rewrite step_END in Hs.
Qed.

Lemma exclusive_inv_reachable s0 c :
  no_output s0 = true -> reachable s0 c -> exclusive_inv c.
Proof.
  intros H0 Hr. induction Hr as [|c c' _ IH Hs]; [done|].
  by eapply exclusive_inv_step.
Qed.

(** C3. In a session that starts without a result, [error] and [output]
    are never both set: in every configuration the session passes through
    [output] is absent or [None], or [error] is [None].  An execution
    attempt either succeeds, the source returning with [output_dict] bound,
    or fails with a text; when it succeeds [error] is [None] afterwards and
    [output] is the value the source bound to [output_dict]; when it fails
    [error] is the text of that failure afterwards and [output] is absent
    or [None]. *)
Theorem error_output_never_both (s0 : State) :
  no_output s0 = true ->
  (forall c, reachable s0 c ->
     no_output (st c) = true \/ error (st c) = Some ErrNone) /\
  (forall c c',
     reachable s0 c -> at_node c = Code_Execution -> step c = Next c' ->
     exists cd,
       code (st c) = Some cd /\
       let res := py_exec (length (exec_calls (log c))) cd
                          (exec_namespace exec_globals) in
       (forall locals v,
           res = Ok locals -> locals !! "output_dict" = Some v ->
           error (st c') = Some ErrNone /\ output (st c') = Some v) /\
       (forall txt,
           attempt_failed res = Some txt ->
           error (st c') = Some (ErrText txt) /\ no_output (st c') = true) /\
       ((exists locals v,
            res = Ok locals /\ locals !! "output_dict" = Some v) \/
        (exists txt, attempt_failed res = Some txt))).
Proof.
  intros H0. split.
  - intros c Hr. pose proof (exclusive_inv_reachable s0 c H0 Hr) as Hinv.
    unfold exclusive_inv in Hinv. destruct (at_node c); auto.
  - intros c c' Hr Hn Hs.
    pose proof (exclusive_inv_reachable s0 c H0 Hr) as Hinv.
    unfold exclusive_inv in Hinv. rewrite Hn in Hinv.
    apply step_Code_Execution in Hs as (cd & n & Hcd & Hi & Hlog & Hres);
      [|done].
    exists cd. split; [done|]. cbn zeta in *.
    destruct Hres as [(locals & v & Hres & Hv & _ & Hst)|(txt & Htxt & Hst)].
    + split; [|split].
      * intros locals' v' Hres' Hv'. rewrite Hres in Hres'.
        simplify_eq. by rewrite Hst.
      * intros txt Htxt. rewrite Hres in Htxt. cbn in Htxt.
        by rewrite Hv in Htxt.
      * left. eauto.
    + assert (error (st c') = Some (ErrText txt) /\
              no_output (st c') = true) as Hafter.
      { destruct Hst as [(_ & _ & ->)|(_ & _ & ->)]; [done|].
        by destruct router_shares_state. }
      split; [|split].
      * intros locals v Hres Hv. rewrite Hres in Htxt. cbn in Htxt.
        by rewrite Hv in Htxt.
      * intros txt' Htxt'. by simplify_eq.
      * right. eauto.
Qed.

(** ** The retry governor *)

(** C1. The router decides from [error] and [iterations] alone: with no
    error it returns END and the graph goes to the formatter; with an error
    and fewer than three attempts it returns RETRY and the graph goes back
    to the code synthesizer; with an error and three attempts or more it
    sets [output] to [None] in the dictionary it was handed, returns STOP
    and the graph goes to its end node, from where a run finishes with its
    log unchanged, so that no model call and no execution follows.  The
    state the session goes on with after an abort has no result when the
    state before had none, and [output] bound to [None] when the router's
    assignment reaches it.  In a session that starts without a result, the
    state observed after every execution attempt is routed by this table,
    and after an abort the session has no result, whether or not the
    router's assignment reaches the session state. *)
Theorem retry_governor_decision (s : State) (err : err_val) (n : Z) :
  error s = Some err -> iterations s = Some n ->
  (err = ErrNone ->
     retry_code s = Ok (s, "END") /\
     successor Code_Execution s = Ok (s, Format_Result)) /\
  (err <> ErrNone -> n < 3 ->
     retry_code s = Ok (s, "RETRY") /\
     successor Code_Execution s = Ok (s, Execute_Task)) /\
  (err <> ErrNone -> 3 <= n ->
     retry_code s = Ok (set_output s VNone, "STOP") /\
     output (set_output s VNone) = Some VNone /\
     successor Code_Execution s =
       Ok (if router_shares_state then set_output s VNone else s, END) /\
     (forall s' w fuel, run (S fuel) (mkConfig END s' w) = Finished s' w) /\
     (forall s' target,
         successor Code_Execution s = Ok (s', target) ->
         (router_shares_state = true -> output s' = Some VNone) /\
         (no_output s = true -> no_output s' = true))) /\
  (forall s2, error s2 = Some err -> iterations s2 = Some n ->
     route_label (retry_code s2) = route_label (retry_code s)) /\
  (forall s0 c c',
      no_output s0 = true -> reachable s0 c ->
      at_node c = Code_Execution -> step c = Next c' ->
      exists e k,
        error (st c') = Some e /\ iterations (st c') = Some k /\
        (e = ErrNone -> at_node c' = Format_Result) /\
        (e <> ErrNone -> k < 3 -> at_node c' = Execute_Task) /\
        (e <> ErrNone -> 3 <= k ->
         at_node c' = END /\
         no_output (st c') = true /\
         (router_shares_state = true -> output (st c') = Some VNone) /\
         forall fuel, run (S fuel) c' = Finished (st c') (log c'))).
Proof.
  intros He Hn.
  pose proof (retry_code_eq s err n He Hn) as Hr.
  pose proof (successor_Code_Execution s err n He Hn) as Hsucc.
  split; [|split; [|split; [|split]]].
  - intros ->. by split.
  - intros Hne Hlt. rewrite Hr, Hsucc. destruct err; [done|]. cbn.
    by destruct (Z.ltb_spec n 3); [|lia].
  - intros Hne Hge. rewrite Hr, Hsucc. destruct err; [done|]. cbn.
    destruct (Z.ltb_spec n 3); [lia|].
    split; [done|]. split; [done|]. split; [done|]. split; [done|].
    intros s' target Heq. simplify_eq.
    destruct router_shares_state; split; try done.
  - intros s2 He2 Hn2. rewrite Hr, (retry_code_eq s2 err n He2 Hn2).
    destruct (is_None err); [done|]. by destruct (n <? 3).
  - intros s0 c c' H0 Hreach Hnode Hs.
    pose proof (exclusive_inv_reachable s0 c H0 Hreach) as Hinv.
    unfold exclusive_inv in Hinv. rewrite Hnode in Hinv.
    apply step_Code_Execution in Hs as (cd & k & Hcd & Hi & Hlog & Hres);
      [|done].
    cbn zeta in Hres.
    destruct Hres as [(locals & v & _ & _ & Hn' & Hst)
                     |(txt & _ & [(Hlt & Hn' & Hst)|(Hge & Hn' & Hst)])].
    + exists ErrNone, k. rewrite Hst, Hn'. cbn. rewrite Hi.
      repeat split; done.
    + exists (ErrText txt), k. rewrite Hst, Hn'. cbn. rewrite Hi.
      split; [done|]. split; [done|]. split; [done|]. split; [done|].
      intros _ Hge. lia.
    + exists (ErrText txt), k.
      assert (error (st c') = Some (ErrText txt) /\
              iterations (st c') = Some k /\
              no_output (st c') = true /\
              (router_shares_state = true -> output (st c') = Some VNone))
        as (He' & Hi' & Hout' & Hnone').
      { rewrite Hst. destruct router_shares_state; cbn; rewrite Hi;
          repeat split; done. }
      split; [done|]. split; [done|]. split; [done|].
      split; [intros _ Hlt; lia|].
      intros _ _. split; [done|]. split; [done|]. split; [done|].
      intros fuel. cbn [run]. by rewrite (step_END c' Hn').
Qed.

(** ** The task plan *)

Lemma step_llm_calls c :
  llm_calls (result_log (step c)) =
  (llm_calls (log c) ++
     match request_of c with
     | Some req => [(req, llm (length (llm_calls (log c))) req)]
     | None => []
     end)%list.
Proof.
  destruct c as [nd s w]. unfold request_of, plan_request, synthesis_request.
  destruct nd; cbn [at_node st log].
  - rewrite step_START by done. cbn. by rewrite app_nil_r.
  - unfold_nodes. simpl. crunch; rewrite ?app_nil_r; congruence.
  - unfold_nodes. simpl.
    destruct (error s) as [err|]; simpl; [|by rewrite app_nil_r].
    destruct (truthy err); simpl; crunch; rewrite ?app_nil_r; congruence.
  - unfold step, run_node, node_function, bind, enter, ret.
    cbn [at_node st log]. rewrite app_nil_r.
    destruct (code s) as [cd|] eqn:Hcd; cycle 1.
    { rewrite execute_with_exec_unbound by auto. done. }
    destruct (iterations s) as [n|] eqn:Hit; cycle 1.
    { rewrite execute_with_exec_unbound by auto. done. }
    rewrite (execute_with_exec_eq _ _ cd n) by (cbn; done).
    cbn [node_calls llm_calls exec_calls]. crunch; done.
  - unfold_nodes. simpl. crunch; rewrite ?app_nil_r; congruence.
  - cbn. by rewrite app_nil_r.
Qed.

Lemma synthesis_request_uses_plan err s p req :
  task_plan s = Some p -> synthesis_request err s = Some req ->
  forall r, uses_plan p (req, r).
Proof.
  unfold synthesis_request, uses_plan. intros Hp Hreq r. rewrite Hp in Hreq.
  destruct (truthy err).
  - destruct (code s) as [cd|]; simplify_eq. cbn. eauto.
  - destruct (user_query s); simplify_eq. by cbn.
Qed.

Lemma plan_inv_step c c' : plan_inv c -> step c = Next c' -> plan_inv c'.
Proof.
  unfold plan_inv. intros Hinv Hs. destruct (at_node c) eqn:Hn.
  - rewrite step_START in Hs by done. by simplify_eq.
  - apply step_Plan_Task in Hs as (q & p & Hq & Hllm & ->); [|done].
    destruct Hinv as [-> ->]. cbn. exists q, p, []. by repeat split.
  - apply step_Execute_Task in Hs
      as (err & n & req & r & He & Hi & Hr & Hllm & ->); [|done].
    destruct Hinv as (q & p & rest & Hcalls & Hp & Hcount & Hall).
    cbn. rewrite Hcalls, Hp. count_nodes.
    exists q, p, (rest ++ [(req, Ok r)]). repeat split; [done|].
    apply Forall_app. split; [done|]. apply Forall_singleton.
    by eapply synthesis_request_uses_plan.
  - apply step_Code_Execution in Hs as (cd & n & Hcd & Hi & Hlog & Hres);
      [|done].
    destruct Hinv as (q & p & rest & Hcalls & Hp & Hcount & Hall).
    cbn zeta in Hres.
    assert (task_plan (st c') = Some p) as Hp'.
    { destruct Hres as [(locals & v & _ & _ & _ & ->)
                       |(txt & _ & [(_ & _ & ->)|(_ & _ & ->)])];
        try done.
      by destruct router_shares_state. }
    assert (exists q p rest,
               llm_calls (log c') = (plan_request q, Ok p) :: rest /\
               task_plan (st c') = Some p /\
               count_node Plan_Task (node_calls (log c')) = 1%nat /\
               Forall (uses_plan p) rest) as Hgoal.
    { exists q, p, rest. rewrite Hlog. cbn. by count_nodes. }
    destruct Hres as [(locals & v & _ & _ & -> & _)
                     |(txt & _ & [(_ & -> & _)|(_ & -> & _)])]; done.
  - apply step_Format_Result in Hs as (q' & v & a & _ & _ & ->); [|done].
    destruct Hinv as (q & p & rest & Hcalls & Hp & Hcount & Hall).
    cbn. rewrite Hcalls, Hp. count_nodes.
    exists q, p, (rest ++ [(FormatRequest FORMAT_RESULT_PROMPT q' v, Ok a)]).
    repeat split; [done|].
    apply Forall_app. split; [done|]. by apply Forall_singleton.
  - by rewrite step_END in Hs.
Qed.

Lemma plan_inv_reachable s0 c : reachable s0 c -> plan_inv c.
Proof.
  intros Hr. induction Hr as [|c c' _ IH Hs]; [done|].
  by eapply plan_inv_step.
Qed.

(** C7. In every session the plan synthesizer runs at most once.  Past
    it, the first exchange of the log is the plan request and its reply,
    [task_plan] holds that reply in the configuration and in the one a step
    leads to, and every repair request sent so far or sent by the next step,
    answered or not, is the repair text built on that same reply. *)
Theorem task_plan_fixed (s0 : State) (c : config) :
  reachable s0 c ->
  (count_node Plan_Task (node_calls (result_log (step c))) <= 1)%nat /\
  (at_node c <> START -> at_node c <> Plan_Task ->
   exists q p,
     head (llm_calls (log c)) = Some (plan_request q, Ok p) /\
     count_node Plan_Task (node_calls (log c)) = 1%nat /\
     task_plan (st c) = Some p /\
     (forall c', step c = Next c' -> task_plan (st c') = Some p) /\
     (forall t r,
        (RepairRequest t, r) ∈ llm_calls (result_log (step c)) ->
        exists err cd, t = repair_prompt err cd p)).
Proof.
  intros Hr. pose proof (plan_inv_reachable s0 c Hr) as Hinv. split.
  - rewrite step_node_calls. unfold plan_inv in Hinv.
    destruct (at_node c) eqn:Hn; cbn [node_function];
      try (destruct Hinv as [Hnc _]; count_nodes; rewrite ?app_nil_r, Hnc;
           unfold count_node; cbn; lia);
      try (destruct Hinv as (q & p & rest & _ & _ & Hcount & _);
           rewrite ?app_nil_r; count_nodes; lia).
  - intros Hn1 Hn2.
    assert (exists q p rest,
               llm_calls (log c) = (plan_request q, Ok p) :: rest /\
               task_plan (st c) = Some p /\
               count_node Plan_Task (node_calls (log c)) = 1%nat /\
               Forall (uses_plan p) rest)
      as (q & p & rest & Hcalls & Hp & Hcount & Hall).
    { unfold plan_inv in Hinv. by destruct (at_node c). }
    exists q, p. rewrite Hcalls. repeat split; try done.
    + intros c' Hs. pose proof (plan_inv_step c c' Hinv Hs) as Hinv'.
      assert (at_node c' <> START /\ at_node c' <> Plan_Task) as [Hn1' Hn2'].
      { destruct (at_node c) eqn:Hn; try done.
        - by apply step_Execute_Task in Hs as (?&?&?&?&?&?&?&?& ->).
        - apply step_Code_Execution in Hs as (?&?&?&?&?& Hres); [|done].
          cbn zeta in Hres.
          destruct Hres as [(?&?&_&_& -> &_)|(?&_&[(_& -> &_)|(_& -> &_)])];
            done.
        - by apply step_Format_Result in Hs as (?&?&?&?&?& ->).
        - by rewrite step_END in Hs. }
      unfold plan_inv in Hinv'.
      assert (exists q' p' rest',
                 llm_calls (log c') = (plan_request q', Ok p') :: rest' /\
                 task_plan (st c') = Some p')
        as (q' & p' & rest' & Hcalls' & Hp').
      { destruct (at_node c'); try done;
          destruct Hinv' as (q' & p' & rest' & ? & ? & _); eauto. }
      pose proof (step_llm_calls c) as Hl. rewrite Hs in Hl.
      cbn [result_log] in Hl. rewrite Hcalls, Hcalls' in Hl.
      cbn in Hl. by simplify_eq.
    + intros t r Hin. rewrite step_llm_calls, Hcalls in Hin.
      apply elem_of_app in Hin as [Hin|Hin].
      * apply elem_of_cons in Hin as [Heq|Hin]; [done|].
        rewrite Forall_forall in Hall. apply (Hall _ Hin).
      * destruct (request_of c) as [req|] eqn:Hreq;
          [|by apply elem_of_nil in Hin].
        apply list_elem_of_singleton in Hin. simplify_eq.
        unfold request_of in Hreq.
        destruct (at_node c) eqn:Hn; try done.
        -- destruct (error (st c)) as [err|] eqn:He; [|done].
           exact (synthesis_request_uses_plan err (st c) p _ Hp Hreq
                    (Ok EmptyString)).
        -- destruct (user_query (st c)), (output (st c)); done.
Qed.

(** ** A session whose attempts all fail *)





Section AllAttemptsFail.

Variable s0 : State.
Variable q : string.
Hypothesis query_set : user_query s0 = Some q.
Hypothesis model_answers : forall i req, exists r, llm i req = Ok r.
Hypothesis execution_fails :
  forall (i : nat) cd,
    (i < 3)%nat ->
    is_Some (attempt_failed (py_exec i cd (exec_namespace exec_globals))).


End AllAttemptsFail.


(** ** The mode of the code synthesizer *)

(** The request of the code synthesizer is a repair request exactly when
    [error] is truthy: a text that is not empty. *)
Lemma synthesis_request_mode err s req :
  synthesis_request err s = Some req -> is_repair req = truthy err.
Proof.
  unfold synthesis_request. destruct (truthy err).
  - destruct (code s), (task_plan s); intros; by simplify_eq.
  - destruct (task_plan s), (user_query s); intros; by simplify_eq.
Qed.

(** A retry on an error text that is not empty sends the repair text built
    from that error, the code of the state and its plan. *)
Lemma retry_with_text_repairs c c' txt :
  at_node c = Execute_Task -> step c = Next c' ->
  error (st c) = Some (ErrText txt) -> txt <> EmptyString ->
  exists cd tp r,
    code (st c) = Some cd /\ task_plan (st c) = Some tp /\
    llm_calls (log c') =
      llm_calls (log c)
        ++ [(RepairRequest (repair_prompt (ErrText txt) cd tp), Ok r)].
Proof.
  intros Hn Hs He Hne.
  apply step_Execute_Task in Hs
    as (err & n & req & r & He' & Hi & Hr & Hllm & ->); [|done].
  assert (err = ErrText txt) as -> by congruence.
  unfold synthesis_request in Hr.
  assert (truthy (ErrText txt) = true) as Ht.
  { cbn. destruct (String.eqb_spec txt EmptyString); done. }
  rewrite Ht in Hr.
  destruct (code (st c)) as [cd|]; [|done].
  destruct (task_plan (st c)) as [tp|]; [|done].
  simplify_eq. by exists cd, tp, r.
Qed.

(** * Further properties of the workflow *)

(** ** The schema description *)

Lemma string_app_assoc (a b c : string) : (a +:+ b) +:+ c = a +:+ (b +:+ c).
Proof.
  induction a as [|ch a IH]; [reflexivity|].
  exact (f_equal (String ch) IH).
Qed.

Lemma string_app_nil_r (a : string) : a +:+ EmptyString = a.
Proof.
  induction a as [|ch a IH]; [reflexivity|].
  exact (f_equal (String ch) IH).
Qed.

Lemma concat_cons_nosep (x : string) (l : list string) :
  String.concat EmptyString (x :: l) = x +:+ String.concat EmptyString l.
Proof. destruct l; cbn; [by rewrite string_app_nil_r|done]. Qed.

(** A loop that appends one row per element builds the start text followed
    by the rows in order. *)
Lemma fold_left_rows {A} (row : A -> string) (l : list A) (acc : string) :
  fold_left (fun acc x => acc +:+ row x) l acc =
  acc +:+ String.concat EmptyString (map row l).
Proof.
  revert acc. induction l as [|x l IH]; intros acc.
  - cbn. by rewrite string_app_nil_r.
  - cbn [fold_left map]. rewrite IH, concat_cons_nosep.
    by rewrite string_app_assoc.
Qed.

(** X1. The schema description returns the two-row preview as it is, and
    its two tables are the header followed by one row per column, in the
    order of the columns: [| name |] in the column table and
    [| name | type |] in the type table.  A dataset without columns gives
    the bare headers. *)
Theorem df_schema_preview_tables :
  (df_schema_preview df).1.1 = df_head_markdown df /\
  (df_schema_preview df).1.2 =
    ("| Column Name |" +:+ nl +:+ "|--------|" +:+ nl)
      +:+ String.concat EmptyString
            (map (fun col => "| " +:+ col +:+ " |" +:+ nl) (df_columns df)) /\
  (df_schema_preview df).2 =
    ("| Column Name | Data Type |" +:+ nl +:+ "|---------|--------|" +:+ nl)
      +:+ String.concat EmptyString
            (map (fun cd => "| " +:+ cd.1 +:+ " | " +:+ cd.2 +:+ " |" +:+ nl)
                 (df_dtypes df)) /\
  (df_columns df = [] ->
   (df_schema_preview df).1.2
     = "| Column Name |" +:+ nl +:+ "|--------|" +:+ nl).
Proof.
  unfold df_schema_preview. cbn [fst snd].
  split; [done|]. split; [|split].
  - apply (fold_left_rows (fun col => "| " +:+ col +:+ " |" +:+ nl)).
  - apply (fold_left_rows
             (fun cd => "| " +:+ cd.1 +:+ " | " +:+ cd.2 +:+ " |" +:+ nl)).
  - by intros ->.
Qed.

(** ** Failures that end the session *)

Lemma run_Crash fuel c e w : step c = Crash e w -> run (S fuel) c = Crashed e w.
Proof. intros H. cbn. by rewrite H. Qed.

(** X2. A failure of the plan synthesizer ends the session at once: without
    a question the plan node raises the key error before any request is
    sent, and an exception of the model on the plan request goes to the
    caller; in both cases the plan node is the only node entered, no code
    was synthesized and nothing was executed. *)
Theorem plan_failure_is_fatal (s0 : State) :
  (user_query s0 = None ->
   invoke s0 = Crashed (KeyError "user_query") (mkLog [Plan_Task] [] [])) /\
  (forall q e,
      user_query s0 = Some q -> llm 0 (plan_request q) = Raise e ->
      invoke s0 =
      Crashed e (mkLog [Plan_Task] [(plan_request q, Raise e)] [])).
Proof.
  unfold invoke, recursion_limit.
  rewrite (run_Next _ (start s0) _ (step_START (start s0) eq_refl)).
  split.
  - intros Hq. apply run_Crash. unfold_nodes. cbn. by rewrite Hq.
  - intros q e Hq Hllm. apply run_Crash. unfold plan_request in *.
    unfold_nodes. cbn in *. rewrite Hq. cbn. by rewrite Hllm.
Qed.

(** X3. What makes the code synthesizer raise, in the order the function
    reads its state: a missing [error]; in the repair branch a missing
    [code], then a missing [task_plan]; in the fresh branch a missing
    [task_plan], then a missing [user_query]; all of these before any
    request is sent.  Once the request is sent, an exception of the model
    goes to the caller, and a missing [iterations] is only found after the
    model has answered: the exchange is in the log and its reply is lost. *)
Theorem execute_task_failures (s : State) (w : Log) :
  (error s = None -> execute_task s w = (w, Raise (KeyError "error"))) /\
  (forall err,
      error s = Some err -> truthy err = true ->
      (code s = None -> execute_task s w = (w, Raise (KeyError "code"))) /\
      (is_Some (code s) -> task_plan s = None ->
       execute_task s w = (w, Raise (KeyError "task_plan")))) /\
  (forall err,
      error s = Some err -> truthy err = false ->
      (task_plan s = None ->
       execute_task s w = (w, Raise (KeyError "task_plan"))) /\
      (is_Some (task_plan s) -> user_query s = None ->
       execute_task s w = (w, Raise (KeyError "user_query")))) /\
  (forall err req,
      error s = Some err -> synthesis_request err s = Some req ->
      let sent r := mkLog (node_calls w) (llm_calls w ++ [(req, r)])
                          (exec_calls w) in
      (forall e, llm (length (llm_calls w)) req = Raise e ->
                 execute_task s w = (sent (Raise e), Raise e)) /\
      (forall r, llm (length (llm_calls w)) req = Ok r ->
                 iterations s = None ->
                 execute_task s w
                   = (sent (Ok r), Raise (KeyError "iterations")))).
Proof.
  unfold execute_task, synthesis_request, invoke_llm, getitem, bind, ret,
    raise.
  split; [by intros ->|]. split; [|split].
  - intros err -> ->. split; [by intros ->|].
    intros [cd ->] ->. done.
  - intros err -> ->. cbn. split; [by intros ->|].
    intros [tp ->] ->. done.
  - intros err req -> Hreq. cbn zeta. destruct (truthy err).
    + destruct (code s) as [cd|]; [|done].
      destruct (task_plan s) as [tp|]; [|done]. simplify_eq.
      split; [intros e He|intros r Hr Hi]; cbn; rewrite ?He, ?Hr, ?Hi; done.
    + destruct (task_plan s) as [tp|]; [|done].
      destruct (user_query s) as [q|]; [|done]. simplify_eq.
      split; [intros e He|intros r Hr Hi]; cbn in *; rewrite ?He, ?Hr, ?Hi;
        done.
Qed.

(** X4. A failure of the model while code is synthesized is not retried:
    the step of the code synthesizer ends the run with the exception of the
    model, whatever the number of attempts made, and the router is not
    consulted. *)
Theorem synthesis_failure_is_fatal (c : config) (err : err_val)
    (req : llm_request) (e : exn) :
  at_node c = Execute_Task ->
  error (st c) = Some err -> synthesis_request err (st c) = Some req ->
  llm (length (llm_calls (log c))) req = Raise e ->
  forall fuel,
    run (S fuel) c =
    Crashed e (mkLog (node_calls (log c) ++ [Execute_Task])
                     (llm_calls (log c) ++ [(req, Raise e)])
                     (exec_calls (log c))).
Proof.
  intros Hn He Hreq Hllm fuel. apply run_Crash.
  destruct c as [nd s w]. cbn [at_node st log] in *. subst nd.
  unfold synthesis_request in Hreq. unfold_nodes. cbn in *.
  rewrite He. cbn. destruct (truthy err).
  - destruct (code s) as [cd|]; [|done].
    destruct (task_plan s) as [tp|]; [|done]. simplify_eq. cbn.
    by rewrite Hllm.
  - destruct (task_plan s) as [tp|]; [|done].
    destruct (user_query s) as [q|]; [|done]. simplify_eq. cbn in *.
    by rewrite Hllm.
Qed.

(** X5. In a state without [code], or without [iterations], the execution
    step runs nothing: the key error of the lookup is caught by the
    handler, the handler's own message reads the unbound local variable
    [iterations], and that second error, raised outside the [try], ends the
    run. *)
Theorem execution_without_code_or_counter (c : config) :
  at_node c = Code_Execution ->
  code (st c) = None \/ iterations (st c) = None ->
  execute_with_exec (st c) (log c)
    = (log c, Raise (UnboundLocalError "iterations")) /\
  forall fuel,
    run (S fuel) c =
    Crashed (UnboundLocalError "iterations")
            (mkLog (node_calls (log c) ++ [Code_Execution])
                   (llm_calls (log c)) (exec_calls (log c))).
Proof.
  intros Hn Hmiss. split; [by apply execute_with_exec_unbound|].
  intros fuel. apply run_Crash.
  destruct c as [nd s w]. cbn [at_node st log] in *. subst nd.
  unfold step, run_node, node_function, bind, enter, ret.
  cbn [at_node st log]. by rewrite execute_with_exec_unbound.
Qed.

(** In a session the execution step always finds the code and the counter
    the code synthesizer has just written. *)
Lemma reachable_Code_Execution s0 c :
  reachable s0 c -> at_node c = Code_Execution ->
  exists cd n, code (st c) = Some cd /\ iterations (st c) = Some n.
Proof.
  intros Hr Hn. destruct Hr as [|c0 c _ Hs]; [done|].
  destruct (at_node c0) eqn:Hn0.
  - rewrite step_START in Hs by done. by simplify_eq.
  - by apply step_Plan_Task in Hs as (?&?&?&?& ->).
  - apply step_Execute_Task in Hs as (err & n & req & r &_&_&_&_& ->);
      [|done].
    by exists r, (n + 1).
  - apply step_Code_Execution in Hs as (?&?&?&?&?& Hres); [|done].
    cbn zeta in Hres.
    destruct Hres as [(?&?&_&_& Hn' &_)|(?&_&[(_& Hn' &_)|(_& Hn' &_)])];
      congruence.
  - by apply step_Format_Result in Hs as (?&?&?&?&?& ->).
  - by rewrite step_END in Hs.
Qed.

(** X6. In a session, whatever state it started from, the execution step
    can end the run in one way only: the generated code raised an
    exception that is not of class [Exception].  The state always has the
    code and the counter, and the router, which reads [error] and
    [iterations] right after the step, never raises. *)
Theorem execution_crash_is_uncaught (s0 : State) (c : config) (e : exn)
    (w : Log) :
  reachable s0 c -> at_node c = Code_Execution -> step c = Crash e w ->
  exists cd,
    code (st c) = Some cd /\
    py_exec (length (exec_calls (log c))) cd (exec_namespace exec_globals)
      = Raise e /\
    isinstance_Exception e = false /\
    w = mkLog (node_calls (log c) ++ [Code_Execution]) (llm_calls (log c))
              (exec_calls (log c) ++ [cd]).
Proof.
  intros Hr Hn Hs.
  destruct (reachable_Code_Execution s0 c Hr Hn) as (cd & n & Hcd & Hit).
  exists cd. split; [done|].
  destruct c as [nd s l]. cbn [at_node st log] in *. subst nd.
  unfold step, run_node, node_function, bind, enter, ret in Hs.
  cbn [at_node st log] in Hs.
  rewrite (execute_with_exec_eq _ _ cd n) in Hs by (cbn; done).
  cbn [node_calls llm_calls exec_calls] in Hs.
  destruct (py_exec _ _ _) as [locals|e'] eqn:Hres.
  - destruct (locals !! "output_dict") as [v|].
    + rewrite (successor_Code_Execution _ ErrNone n) in Hs by (cbn; done).
      by cbn in Hs.
    + rewrite (successor_Code_Execution _ (ErrText "Missing output_dict") n)
        in Hs by (cbn; done).
      cbn in Hs. by destruct (n <? 3).
  - destruct (isinstance_Exception e') eqn:He.
    + rewrite (successor_Code_Execution _ (ErrText (exn_str e')) n)
        in Hs by (cbn; done).
      cbn in Hs. by destruct (n <? 3).
    + by simplify_eq.
Qed.

(** ** The order of the nodes *)

#[local] Arguments rounds : simpl never.

Lemma rounds_S k : rounds (S k) = Execute_Task :: Code_Execution :: rounds k.
Proof. reflexivity. Qed.

Lemma rounds_snoc k :
  rounds k ++ [Execute_Task; Code_Execution] = rounds (S k).
Proof.
  induction k as [|k IH]; [reflexivity|].
  rewrite !rounds_S. cbn. rewrite IH. by rewrite rounds_S.
Qed.

Lemma shape_inv_step c c' : shape_inv c -> step c = Next c' -> shape_inv c'.
Proof.
  unfold shape_inv. intros Hinv Hs. destruct (at_node c) eqn:Hn.
  - rewrite step_START in Hs by done. by simplify_eq.
  - apply step_Plan_Task in Hs as (q & p & _ & _ & ->); [|done].
    cbn. rewrite Hinv. by exists 0%nat.
  - apply step_Execute_Task in Hs as (?&?&?&?&_&_&_&_& ->); [|done].
    destruct Hinv as [k Hk]. cbn. rewrite Hk. by exists k.
  - apply step_Code_Execution in Hs as (cd & n & _ & _ & Hlog & Hres);
      [|done].
    destruct Hinv as [k Hk]. cbn zeta in Hres.
    assert (node_calls (log c') = Plan_Task :: rounds (S k)) as Hnodes.
    { rewrite Hlog. cbn. rewrite Hk. cbn. rewrite <- app_assoc. cbn.
      by rewrite rounds_snoc. }
    destruct Hres as [(?&?&_&_& -> &_)|(?&_&[(_& -> &_)|(_& -> &_)])];
      eauto.
  - apply step_Format_Result in Hs as (?&?&?&_&_& ->); [|done].
    destruct Hinv as [k Hk]. cbn. rewrite Hk. exists k. by right.
  - by rewrite step_END in Hs.
Qed.

(** X7. The nodes of a session come in one order: the plan node once,
    then rounds of code synthesis followed by execution, and the formatter
    last if at all.  By the node the session is at: nothing entered before
    the plan node; whole rounds at the code synthesizer; an open round at
    the execution step; at least one whole round at the formatter and at
    the end, where the formatter may have closed the list. *)
Theorem session_shape (s0 : State) (c : config) :
  reachable s0 c ->
  match at_node c with
  | START | Plan_Task => node_calls (log c) = []
  | Execute_Task => exists k, node_calls (log c) = Plan_Task :: rounds k
  | Code_Execution =>
      exists k, node_calls (log c) = Plan_Task :: rounds k ++ [Execute_Task]
  | Format_Result => exists k, node_calls (log c) = Plan_Task :: rounds (S k)
  | END =>
      exists k,
        node_calls (log c) = Plan_Task :: rounds (S k) \/
        node_calls (log c) = Plan_Task :: rounds (S k) ++ [Format_Result]
  end.
Proof.
  intros Hr. change (shape_inv c).
  induction Hr as [|c c' _ IH Hs]; [done|]. by eapply shape_inv_step.
Qed.

(** ** What a session costs *)

Lemma step_exec_calls c :
  exec_calls (result_log (step c)) =
  exec_calls (log c) ++
    match at_node c, code (st c), iterations (st c) with
    | Code_Execution, Some cd, Some _ => [cd]
    | _, _, _ => []
    end.
Proof.
  destruct c as [nd s w]. destruct nd; cbn [at_node st log].
  - rewrite step_START by done. cbn. by rewrite app_nil_r.
  - unfold_nodes. simpl. crunch; by rewrite app_nil_r.
  - unfold_nodes. simpl. crunch; by rewrite app_nil_r.
  - unfold step, run_node, node_function, bind, enter, ret.
    cbn [at_node st log].
    destruct (code s) as [cd|] eqn:Hcd; cycle 1.
    { rewrite execute_with_exec_unbound by auto. cbn. by rewrite app_nil_r. }
    destruct (iterations s) as [n|] eqn:Hit; cycle 1.
    { rewrite execute_with_exec_unbound by auto. cbn. by rewrite app_nil_r. }
    rewrite (execute_with_exec_eq _ _ cd n) by (cbn; done).
    cbn [node_calls llm_calls exec_calls]. crunch; done.
  - unfold_nodes. simpl. crunch; by rewrite app_nil_r.
  - cbn. by rewrite app_nil_r.
Qed.

Lemma counts_inv_step c c' : counts_inv c -> step c = Next c' -> counts_inv c'.
Proof.
  unfold counts_inv. cbn zeta. intros (Hnodes & Hllm & Hexec & Hinv) Hs.
  destruct (at_node c) eqn:Hn.
  - rewrite step_START in Hs by done. simplify_eq. by cbn.
  - apply step_Plan_Task in Hs as (q & p & _ & _ & ->); [|done].
    cbn. rewrite !length_app. count_nodes. cbn. lia.
  - apply step_Execute_Task in Hs as (?&?&?&?&_&_&_&_& ->); [|done].
    cbn. rewrite !length_app. count_nodes. cbn. lia.
  - apply step_Code_Execution in Hs as (cd & n & _ & _ & Hlog & Hres);
      [|done].
    cbn zeta in Hres. rewrite Hlog. cbn [node_calls llm_calls exec_calls].
    rewrite !length_app. count_nodes. cbn [length].
    destruct Hres as [(?&?&_&_& -> &_)|(?&_&[(_& -> &_)|(_& -> &_)])]; lia.
  - apply step_Format_Result in Hs as (?&?&?&_&_& ->); [|done].
    cbn. rewrite !length_app. count_nodes. cbn. lia.
  - by rewrite step_END in Hs.
Qed.

Lemma counts_inv_reachable s0 c : reachable s0 c -> counts_inv c.
Proof.
  intros Hr. induction Hr as [|c c' _ IH Hs].
  - unfold counts_inv, count_node. by cbn.
  - by eapply counts_inv_step.
Qed.

(** X8. A session that starts with [iterations] at 0 ends, finished or cut
    short by an exception, having sent at most five requests to the model
    (the plan, three syntheses, the answer), executed at most three sources
    and entered at most eight nodes. *)
Theorem session_cost_bound (s0 : State) :
  iterations s0 = Some 0 ->
  match invoke s0 with
  | Finished _ w | Crashed _ w =>
      (length (llm_calls w) <= 5)%nat /\
      (length (exec_calls w) <= 3)%nat /\
      (length (node_calls w) <= 8)%nat
  | RecursionLimit _ => False
  end.
Proof.
  intros H0.
  pose proof (run_reachable s0 recursion_limit (start s0) (reach_start s0))
    as Hrun.
  pose proof (run_within_measure recursion_limit (start s0)
                (budget_inv_reachable s0 _ H0 (reach_start s0))) as Hlim.
  fold (invoke s0) in Hrun, Hlim.
  destruct (invoke s0) as [s w|e w|w].
  - destruct Hrun as (c' & Hr & Hn & _ & <-).
    destruct (budget_inv_reachable s0 c' H0 Hr) as (k & _ & Ha & Hnode).
    destruct (counts_inv_reachable s0 c' Hr) as (Hnodes & Hllm & Hexec & Hinv).
    rewrite Hn in Hnode, Hinv. unfold attempts in Ha. lia.
  - destruct Hrun as (c' & Hr & Hs).
    destruct (budget_inv_reachable s0 c' H0 Hr) as (k & _ & Ha & Hnode).
    destruct (counts_inv_reachable s0 c' Hr) as (Hnodes & Hllm & Hexec & Hinv).
    pose proof (step_node_calls c') as Hnc.
    pose proof (step_llm_calls c') as Hlc.
    pose proof (step_exec_calls c') as Hec.
    rewrite Hs in Hnc, Hlc, Hec. cbn [result_log] in Hnc, Hlc, Hec.
    rewrite Hnc, Hlc, Hec, !length_app. unfold attempts in Ha.
    assert (length (match request_of c' with
                    | Some req =>
                        [(req, llm (length (llm_calls (log c'))) req)]
                    | None => []
                    end) <= 1)%nat as Hone by (destruct (request_of c'); cbn; lia).
    assert (length (match at_node c', code (st c'), iterations (st c') with
                    | Code_Execution, Some cd, Some _ => [cd]
                    | _, _, _ => []
                    end) <= 1)%nat as Hone'
      by (repeat case_match; cbn; lia).
    assert (at_node c' <> Code_Execution ->
            match at_node c', code (st c'), iterations (st c') with
            | Code_Execution, Some cd, Some _ => [cd]
            | _, _, _ => []
            end = []) as Hnil by (intros; by repeat case_match).
    destruct (at_node c') eqn:Hn; cbn [node_function length];
      [by rewrite step_START in Hs| | | | |by rewrite step_END in Hs];
      try rewrite Hnil by done; unfold request_of in *; rewrite Hn in *;
      cbn [length] in *; lia.
  - eapply Hlim; [|done]. unfold recursion_limit. cbn. lia.
Qed.

(** ** The answer *)

Lemma format_inv_step c c' : format_inv c -> step c = Next c' -> format_inv c'.
Proof.
  unfold format_inv. cbn zeta. intros Hinv Hs. destruct (at_node c) eqn:Hn.
  - rewrite step_START in Hs by done. by simplify_eq.
  - apply step_Plan_Task in Hs as (q & p & _ & _ & ->); [|done].
    cbn. by count_nodes.
  - apply step_Execute_Task in Hs as (?&?&?&?&_&_&_&_& ->); [|done].
    cbn. by count_nodes.
  - apply step_Code_Execution in Hs as (cd & n & _ & _ & Hlog & Hres);
      [|done].
    cbn zeta in Hres. rewrite Hlog. cbn [node_calls]. count_nodes.
    destruct Hres as [(locals & v & Hres & Hv & -> & ->)
                     |(?&_&[(_& -> &_)|(_& -> &_)])];
      [|done|by left].
    cbn. split; [done|]. split; [done|]. exists v. split; [done|].
    by exists (exec_calls (log c)), cd, locals.
  - apply step_Format_Result in Hs as (q & v & a & Hq & Hv & ->); [|done].
    destruct Hinv as (Hcount & Herr & v' & Hv' & Hlast).
    assert (v' = v) as -> by congruence.
    cbn. count_nodes. right.
    rewrite Hcount, Herr, Hq, Hv, last_snoc.
    split; [done|]. split; [done|]. by exists q, v, a.
  - by rewrite step_END in Hs.
Qed.

Lemma format_inv_reachable s0 c : reachable s0 c -> format_inv c.
Proof.
  intros Hr. induction Hr as [|c c' _ IH Hs]; [done|].
  by eapply format_inv_step.
Qed.

(** X9. The formatter runs at most once in a session, and only after an
    execution attempt that returned with [output_dict] bound: when the
    session is at the formatter, [error] is [None] and [output] is the
    value the last executed source bound to [output_dict], a value that may
    itself be [None]; once the formatter has run the session is at its
    end, [error] is still [None], [output] is still that value, and
    [answer] is the reply of the model to the last request of the log, the
    format request built from the question and that value. *)
Theorem answer_follows_success (s0 : State) (c : config) :
  reachable s0 c ->
  (count_node Format_Result (node_calls (log c)) <= 1)%nat /\
  (at_node c = Format_Result ->
   error (st c) = Some ErrNone /\
   exists v, output (st c) = Some v /\ last_result (log c) v) /\
  (count_node Format_Result (node_calls (log c)) <> 0%nat ->
   at_node c = END /\ error (st c) = Some ErrNone /\
   exists q v a,
     user_query (st c) = Some q /\ output (st c) = Some v /\
     last_result (log c) v /\
     answer (st c) = Some a /\
     last (llm_calls (log c))
       = Some (FormatRequest FORMAT_RESULT_PROMPT q v, Ok a)).
Proof.
  intros Hr. pose proof (format_inv_reachable s0 c Hr) as Hinv.
  unfold format_inv in Hinv. cbn zeta in Hinv.
  destruct (at_node c) eqn:Hn;
    try (rewrite Hinv; split; [lia|]; split; [done|]; intros; lia).
  - destruct Hinv as (Hcount & Herr & Hout). rewrite Hcount.
    split; [lia|]. split; [done|]. intros; lia.
  - destruct Hinv as [Hcount|(Hcount & Herr & Hans)]; rewrite Hcount.
    + split; [lia|]. split; [done|]. intros; lia.
    + split; [lia|]. split; [done|]. by intros _.
Qed.

(** ** What the nodes leave alone *)

Lemma count_node_snoc_0 n l m :
  count_node n (l ++ [m]) = 0%nat -> count_node n l = 0%nat /\ n <> m.
Proof.
  rewrite count_node_snoc. destruct (decide (n = m)); [lia|].
  intros H. split; [lia|done].
Qed.

Ltac frame_field Hplan Hsynth Hexec Hfmt :=
  first
    [ done
    | let H0 := fresh "H0" in
      let Hne := fresh "Hne" in
      intros [H0 Hne]%count_node_snoc_0;
      first [done|by apply Hplan|by apply Hsynth|by apply Hexec
            |by apply Hfmt] ].

Lemma frame_inv_step s0 c c' :
  frame_inv s0 c -> step c = Next c' -> frame_inv s0 c'.
Proof.
  unfold frame_inv. intros (Hq & Hplan & Hsynth & Hexec & Hfmt) Hs.
  destruct (at_node c) eqn:Hn.
  - rewrite step_START in Hs by done. by simplify_eq.
  - apply step_Plan_Task in Hs as (q & p & _ & _ & ->); [|done].
    cbn. split; [|split; [|split; [|split]]];
      frame_field Hplan Hsynth Hexec Hfmt.
  - apply step_Execute_Task in Hs as (?&?&?&?&_&_&_&_& ->); [|done].
    cbn. split; [|split; [|split; [|split]]];
      frame_field Hplan Hsynth Hexec Hfmt.
  - apply step_Code_Execution in Hs as (cd & n & Hcd & _ & Hlog & Hres);
      [|done].
    cbn zeta in Hres. rewrite Hlog. cbn [node_calls].
    assert (user_query (st c') = user_query (st c) /\
            task_plan (st c') = task_plan (st c) /\
            code (st c') = code (st c) /\
            iterations (st c') = iterations (st c) /\
            answer (st c') = answer (st c)) as (Hq' & Hp' & Hc' & Hi' & Ha').
    { destruct Hres as [(?&?&_&_&_& ->)|(?&_&[(_&_& ->)|(_&_& ->)])];
        cbn; rewrite ?Hcd; try done.
      destruct router_shares_state; cbn; by rewrite ?Hcd. }
    rewrite Hq', Hp', Hc', Hi', Ha'.
    split; [|split; [|split; [|split]]];
      frame_field Hplan Hsynth Hexec Hfmt.
  - apply step_Format_Result in Hs as (?&?&?&_&_& ->); [|done].
    cbn. split; [|split; [|split; [|split]]];
      frame_field Hplan Hsynth Hexec Hfmt.
  - by rewrite step_END in Hs.
Qed.

(** X10. No node writes the question, and every other field of the state
    is as the caller passed it until the one node that writes it has been
    entered: [task_plan] until the plan node, [code] and [iterations] until
    the code synthesizer, [error] and [output] until the execution step,
    [answer] until the formatter. *)
Theorem fields_keep_until_written (s0 : State) (c : config) :
  reachable s0 c ->
  user_query (st c) = user_query s0 /\
  (count_node Plan_Task (node_calls (log c)) = 0%nat ->
   task_plan (st c) = task_plan s0) /\
  (count_node Execute_Task (node_calls (log c)) = 0%nat ->
   code (st c) = code s0 /\ iterations (st c) = iterations s0) /\
  (count_node Code_Execution (node_calls (log c)) = 0%nat ->
   error (st c) = error s0 /\ output (st c) = output s0) /\
  (count_node Format_Result (node_calls (log c)) = 0%nat ->
   answer (st c) = answer s0).
Proof.
  intros Hr. change (frame_inv s0 c).
  induction Hr as [|c c' _ IH Hs]; [by unfold frame_inv|].
  by eapply frame_inv_step.
Qed.

(** ** What is executed, and what is fed back *)

Lemma synthesized_snoc (l : list (llm_request * result string)) call :
  omap synthesized_code (l ++ [call]) =
  omap synthesized_code l ++
    match synthesized_code call with
    | Some r => [r]
    | None => []
    end.
Proof. rewrite omap_app. cbn. by destruct (synthesized_code call). Qed.

Lemma synthesis_request_code err s req r :
  synthesis_request err s = Some req -> synthesized_code (req, Ok r) = Some r.
Proof.
  unfold synthesis_request. destruct (truthy err).
  - destruct (code s), (task_plan s); intros; by simplify_eq.
  - destruct (task_plan s), (user_query s); intros; by simplify_eq.
Qed.

Lemma sources_inv_step c c' : sources_inv c -> step c = Next c' -> sources_inv c'.
Proof.
  unfold sources_inv, synthesized. intros Hinv Hs.
  destruct (at_node c) eqn:Hn.
  - rewrite step_START in Hs by done. by simplify_eq.
  - apply step_Plan_Task in Hs as (q & p & _ & _ & ->); [|done].
    cbn [at_node log st llm_calls exec_calls]. rewrite synthesized_snoc.
    cbn. rewrite app_nil_r. exact Hinv.
  - apply step_Execute_Task in Hs as (err & n & req & r &_&_& Hreq &_& ->);
      [|done].
    cbn [at_node log st llm_calls exec_calls]. exists r. split; [done|].
    rewrite synthesized_snoc.
    rewrite (synthesis_request_code err _ req r Hreq).
    by rewrite <- Hinv.
  - apply step_Code_Execution in Hs as (cd & n & Hcd & _ & Hlog & Hres);
      [|done].
    destruct Hinv as (cd' & Hcd' & Hinv).
    assert (cd' = cd) as -> by congruence.
    assert (omap synthesized_code (llm_calls (log c'))
            = exec_calls (log c')) as Hgoal.
    { rewrite Hlog. by cbn. }
    cbn zeta in Hres.
    by destruct Hres as [(?&?&_&_& -> &_)|(?&_&[(_& -> &_)|(_& -> &_)])].
  - apply step_Format_Result in Hs as (?&?&?&_&_& ->); [|done].
    cbn [at_node log st llm_calls exec_calls]. rewrite synthesized_snoc.
    cbn. rewrite app_nil_r. exact Hinv.
  - by rewrite step_END in Hs.
Qed.

(** X11. What a session executes is what the model wrote, in the same
    order and once each: the list of executed sources is the list of
    replies to the code and repair requests, except at the execution step,
    where the last reply, the [code] of the state, is still to be run. *)
Theorem executed_is_synthesized (s0 : State) (c : config) :
  reachable s0 c ->
  match at_node c with
  | Code_Execution =>
      exists cd,
        code (st c) = Some cd /\
        synthesized (log c) = exec_calls (log c) ++ [cd]
  | _ => synthesized (log c) = exec_calls (log c)
  end.
Proof.
  intros Hr. change (sources_inv c).
  induction Hr as [|c c' _ IH Hs]; [done|]. by eapply sources_inv_step.
Qed.

(** X12. A failed attempt is fed back as it happened: when the execution
    step fails with a text that is not empty and the router sends the
    session back, the next request of the code synthesizer is the repair
    text built from that very text, the code that was just run and the plan
    of the state. *)
Theorem failure_is_fed_back (c c1 c2 : config) :
  at_node c = Code_Execution -> step c = Next c1 ->
  at_node c1 = Execute_Task -> step c1 = Next c2 ->
  exists cd txt,
    code (st c) = Some cd /\
    attempt_failed (py_exec (length (exec_calls (log c))) cd
                            (exec_namespace exec_globals)) = Some txt /\
    error (st c1) = Some (ErrText txt) /\
    (txt <> EmptyString ->
     exists tp r,
       task_plan (st c) = Some tp /\
       last (llm_calls (log c2))
         = Some (RepairRequest (repair_prompt (ErrText txt) cd tp), Ok r)).
Proof.
  intros Hn Hs Hn1 Hs1.
  apply step_Code_Execution in Hs as (cd & n & Hcd & _ & Hlog & Hres);
    [|done].
  cbn zeta in Hres.
  destruct Hres as [(?&?&_&_& Hn' &_)
                   |(txt & Htxt & [(_&_& Hst)|(_& Hn' &_)])];
    try congruence.
  exists cd, txt. split; [done|]. split; [done|].
  assert (error (st c1) = Some (ErrText txt)) as Herr by (by rewrite Hst).
  split; [done|]. intros Hne.
  destruct (retry_with_text_repairs c1 c2 txt Hn1 Hs1 Herr Hne)
    as (cd' & tp & r & Hcd' & Htp & Hcalls).
  rewrite Hst in Hcd', Htp. cbn in Hcd', Htp. simplify_eq.
  exists tp, r. split; [done|]. by rewrite Hcalls, last_snoc.
Qed.

(** ** A session that succeeds after failures *)



Section SuccessAfterFailures.

Variable q : string.
Hypothesis model_answers : forall i req, exists r, llm i req = Ok r.



End SuccessAfterFailures.


End Workflow.

(** * The sample sessions, run *)

Local Abbreviation planner := "You plan the analysis.".
Local Abbreviation coder := "You write the code.".
Local Abbreviation formatter := "You word the answer.".
Local Abbreviation question := "What is the total of sales?".

(** The environment of a sample session whose model writes [codes]. *)
Local Notation "f 'in_session' codes" :=
  (f (llm_writes codes) python_on sample_df planner coder formatter true)
  (at level 10, codes at level 9, only parsing).

(** C5. A first attempt that raises an exception with an empty description
    leaves the empty text in [error]; the router answers RETRY and the
    session is back at the code synthesizer, which then sends the request of
    a fresh generation, not the repair request: none of the four requests of
    the session is a repair request.  The same session with an exception that
    has a description sends the repair request as its third. *)
Theorem empty_error_retry_is_fresh :
  let s0 := initial_state question in
  let codes := ["assert len(df) == 0"; "output_dict = {'total': 10}"] in
  let after_attempt := steps in_session codes 4 (start s0) in
  error (st after_attempt) = Some (ErrText EmptyString) /\
  route_label (retry_code (st after_attempt)) = Some "RETRY" /\
  at_node after_attempt = Execute_Task /\
  (exists s w,
      invoke in_session codes s0 = Finished s w /\
      map (fun call => is_repair call.1) (llm_calls w)
        = [false; false; false; false]) /\
  (exists s w,
      invoke in_session ["output_dict = 1 / 0"; "output_dict = {'total': 10}"]
             s0 = Finished s w /\
      map (fun call => is_repair call.1) (llm_calls w)
        = [false; false; true; false]).
Proof.
  cbv zeta. split; [by vm_compute|]. split; [by vm_compute|].
  split; [by vm_compute|]. split.
  - eexists _, _. split; [by vm_compute|]. by vm_compute.
  - eexists _, _. split; [by vm_compute|]. by vm_compute.
Qed.

(** ** Where the stated properties fail *)

(** Against C3 as stated: after an execution attempt, exactly one of
    [error] and [output] holds something.  A source that binds
    [output_dict] to [None] succeeds and leaves both empty. *)
Lemma exactly_one_set_counterexample :
  ~ (forall llm py_exec df p1 p2 p3 shares s0 c c',
        no_output s0 = true ->
        reachable llm py_exec df p1 p2 p3 shares s0 c ->
        at_node c = Code_Execution ->
        step llm py_exec df p1 p2 p3 shares c = Next c' ->
        exactly_one_set (st c') = true).
Proof.
  intros H.
  pose (s0 := initial_state question).
  pose (c := steps in_session ["output_dict = None"] 3 (start s0)).
  pose (c' := steps in_session ["output_dict = None"] 4 (start s0)).
  specialize (H (llm_writes ["output_dict = None"]) python_on sample_df
                planner coder formatter true s0 c c' eq_refl).
  assert (exactly_one_set (st c') = true) as Hone.
  { apply H.
    - apply reachable_steps, reach_start.
    - by vm_compute.
    - by vm_compute. }
  by vm_compute in Hone.
Qed.

(** Against C9 as stated: the names bound in the namespace the source runs
    in are exactly those of the allow-list. *)
Lemma namespace_is_allow_list_counterexample :
  ~ (forall name,
        is_Some (exec_namespace exec_globals !! name) <-> name ∈ allow_list).
Proof.
  intros H. destruct (H "__builtins__") as [Hin _].
  assert (is_Some (exec_namespace exec_globals !! "__builtins__")) as Hb.
  { exists (HModule "builtins"). by vm_compute. }
  apply Hin in Hb. unfold allow_list in Hb.
  repeat (apply elem_of_cons in Hb as [Hb|Hb]; [discriminate Hb|]).
  by apply elem_of_nil in Hb.
Qed.

(** Against C10 as stated: with [code] and [iterations] present the
    execution step always returns a dictionary.  A source that raises
    [SystemExit] makes the step raise. *)
Lemma execute_with_exec_total_counterexample :
  ~ (forall py_exec s w,
        is_Some (code s) -> is_Some (iterations s) ->
        exists upd, (execute_with_exec py_exec s w).2 = Ok upd).
Proof.
  intros H.
  destruct (H python_on
              (mkState (Some question) (Some "Sum the sales column.")
                       (Some "raise SystemExit") (Some ErrNone) (Some 1)
                       None None)
              empty_log) as [upd Hupd]; [by eexists..|].
  by vm_compute in Hupd.
Qed.

(** ** The theorems at sample inputs *)

Lemma retry_governor_decision_witness :
  let s := mkState (Some question) (Some "Sum the sales column.")
                   (Some "output_dict = 1 / 0")
                   (Some (ErrText "division by zero")) (Some 3) None None in
  let s0 := initial_state question in
  let codes := ["output_dict = 1 / 0"; "output_dict = 1 / 0";
                "output_dict = 1 / 0"] in
  let c := steps (llm_writes codes) python_on sample_df planner coder
                 formatter false 7 (start s0) in
  let c' := steps (llm_writes codes) python_on sample_df planner coder
                  formatter false 8 (start s0) in
  error s = Some (ErrText "division by zero") /\
  iterations s = Some 3 /\
  retry_code s = Ok (set_output s VNone, "STOP") /\
  at_node c = Code_Execution /\
  at_node c' = END /\ no_output (st c') = true.
Proof.
  intros s s0 codes c c'. split; [reflexivity|]. split; [reflexivity|].
  destruct (retry_governor_decision (llm_writes codes) python_on sample_df
              planner coder formatter false s
              (ErrText "division by zero") 3 eq_refl eq_refl)
    as (_ & _ & Habort & _ & Hsession).
  split; [apply Habort; [discriminate|lia]|].
  split; [by vm_compute|].
  destruct (Hsession s0 c c' eq_refl) as (e & k & He & Hk & _ & _ & Hstop).
  - apply reachable_steps, reach_start.
  - by vm_compute.
  - by vm_compute.
  - assert (e = ErrText "division by zero") as ->
      by (vm_compute in He; congruence).
    assert (k = 3) as -> by (vm_compute in Hk; congruence).
    destruct Hstop as (Hend & Hout & _); [discriminate|lia|].
    by split.
Defined.

Lemma attempt_budget_witness :
  iterations (initial_state question) = Some 0 /\
  match invoke in_session ["output_dict = 1 / 0"; "output_dict = 1 / 0";
                           "output_dict = {'total': 10}"]
               (initial_state question) with
  | Finished s w =>
      exists k, iterations s = Some k /\ 1 <= k <= 3 /\ k = attempts w
  | Crashed e w => attempts w <= 3
  | RecursionLimit _ => False
  end.
Proof.
  split; [reflexivity|].
  pose proof (attempt_budget
                in_session ["output_dict = 1 / 0"; "output_dict = 1 / 0";
                            "output_dict = {'total': 10}"]
                (initial_state question) eq_refl) as [_ Hrun].
  exact Hrun.
Defined.

Lemma error_output_never_both_witness :
  let s0 := initial_state question in
  let c := steps in_session ["output_dict = 1 / 0"] 4 (start s0) in
  no_output s0 = true /\
  (no_output (st c) = true \/ error (st c) = Some ErrNone).
Proof.
  intros s0 c. split; [reflexivity|].
  apply (proj1 (error_output_never_both in_session ["output_dict = 1 / 0"]
                  s0 eq_refl)).
  apply reachable_steps, reach_start.
Defined.


Lemma missing_output_is_error_witness :
  let s := mkState (Some question) (Some "Sum the sales column.")
                   (Some "total = 10") (Some ErrNone) (Some 1) None None in
  (execute_with_exec python_on s empty_log).2
    = Ok (failure_update "total = 10" "Missing output_dict").
Proof.
  intros s.
  refine (proj1 (missing_output_is_error python_on true s empty_log
                   "total = 10" 1 {["total" := VInt 10]}
                   eq_refl eq_refl eq_refl _)).
  by vm_compute.
Defined.

Lemma task_plan_fixed_witness :
  let s0 := initial_state question in
  let c := steps in_session ["output_dict = 1 / 0";
                             "output_dict = {'total': 10}"] 4 (start s0) in
  at_node c = Execute_Task /\
  exists q p,
    head (llm_calls (log c)) = Some (plan_request sample_df planner q, Ok p) /\
    task_plan (st c) = Some p /\
    forall t r,
      (RepairRequest t, r)
        ∈ llm_calls (result_log
                       (step in_session ["output_dict = 1 / 0";
                                         "output_dict = {'total': 10}"] c)) ->
      exists err cd, t = repair_prompt err cd p.
Proof.
  intros s0 c. split; [by vm_compute|].
  destruct (proj2 (task_plan_fixed
                     in_session ["output_dict = 1 / 0";
                                 "output_dict = {'total': 10}"] s0 c
                     (reachable_steps
                        in_session ["output_dict = 1 / 0";
                                    "output_dict = {'total': 10}"]
                        s0 4 (start s0)
                        (reach_start
                           in_session ["output_dict = 1 / 0";
                                       "output_dict = {'total': 10}"] s0))))
    as (q & p & Hhead & _ & Hplan & _ & Hrepair).
  - by vm_compute.
  - by vm_compute.
  - exists q, p. repeat split; assumption.
Defined.

Lemma iterations_counts_synthesis_witness :
  let s0 := initial_state question in
  let c := steps in_session ["output_dict = {'total': 10}"] 2 (start s0) in
  let c' := steps in_session ["output_dict = {'total': 10}"] 3 (start s0) in
  at_node c = Execute_Task /\
  exists n r,
    iterations (st c) = Some n /\ iterations (st c') = Some (n + 1) /\
    code (st c') = Some r.
Proof.
  intros s0 c c'. split; [by vm_compute|].
  assert (step in_session ["output_dict = {'total': 10}"] c = Next c')
    as Hstep by (by vm_compute).
  destruct (proj1 (iterations_counts_synthesis
                     in_session ["output_dict = {'total': 10}"] c c' Hstep))
    as (n & err & req & r & Hn & _ & _ & _ & Hn' & Hcode).
  - by vm_compute.
  - exists n, r. repeat split; assumption.
Defined.

Lemma execute_with_exec_catches_witness :
  let s := mkState (Some question) (Some "Sum the sales column.")
                   (Some "output_dict = 1 / 0") (Some ErrNone) (Some 1)
                   None None in
  (execute_with_exec python_on s empty_log).2
    = Ok (failure_update "output_dict = 1 / 0" "division by zero").
Proof.
  intros s.
  destruct (execute_with_exec_catches python_on s empty_log
              "output_dict = 1 / 0" 1 eq_refl eq_refl)
    as (Hcaught & _).
  exact (proj1 (Hcaught (mkExn "ZeroDivisionError" true "division by zero")
                        eq_refl eq_refl)).
Defined.

Lemma exec_namespace_bindings_witness :
  let s := mkState (Some question) (Some "Sum the sales column.")
                   (Some "total = 10") (Some ErrNone) (Some 1) None None in
  exec_calls (execute_with_exec python_on s empty_log).1 = ["total = 10"].
Proof.
  intros s.
  destruct (exec_namespace_bindings python_on) as (_ & _ & _ & _ & Hrun).
  exact (proj1 (Hrun s empty_log "total = 10" 1 eq_refl eq_refl)).
Defined.

(** ** The further properties at sample inputs *)

Lemma df_schema_preview_tables_witness :
  (df_schema_preview (mkDataFrame "| |" [] [])).1.2
    = "| Column Name |" +:+ nl +:+ "|--------|" +:+ nl.
Proof.
  destruct (df_schema_preview_tables (mkDataFrame "| |" [] []))
    as (_ & _ & _ & Hempty).
  exact (Hempty eq_refl).
Defined.

Lemma plan_failure_is_fatal_witness :
  invoke (llm_down_at 0 []) python_on sample_df planner coder formatter true
         (initial_state question)
    = Crashed (mkExn "TimeoutError" true "The model did not answer.")
              (mkLog [Plan_Task]
                     [(plan_request sample_df planner question,
                       Raise (mkExn "TimeoutError" true
                                    "The model did not answer."))]
                     []) /\
  invoke in_session [] (mkState None None None (Some ErrNone) (Some 0)
                                None None)
    = Crashed (KeyError "user_query") (mkLog [Plan_Task] [] []).
Proof.
  split.
  - destruct (plan_failure_is_fatal (llm_down_at 0 []) python_on sample_df
                planner coder formatter true (initial_state question))
      as [_ Hmodel].
    exact (Hmodel question _ eq_refl eq_refl).
  - destruct (plan_failure_is_fatal in_session []
                (mkState None None None (Some ErrNone) (Some 0) None None))
      as [Hquery _].
    exact (Hquery eq_refl).
Defined.

Lemma execute_task_failures_witness :
  let s := mkState (Some question) (Some "Sum the sales column.") None
                   (Some ErrNone) None None None in
  exists req,
    execute_task (llm_writes ["total = 10"]) sample_df coder s
                 (mkLog [Plan_Task] [] [])
    = (mkLog [Plan_Task] [(req, Ok "total = 10")] [],
       Raise (KeyError "iterations")).
Proof.
  intros s.
  destruct (execute_task_failures (llm_writes ["total = 10"]) sample_df
              coder s (mkLog [Plan_Task] [] []))
    as (_ & _ & _ & Hsent).
  assert (exists req,
             synthesis_request sample_df coder ErrNone s = Some req)
    as [req Hreq] by (eexists; reflexivity).
  destruct (Hsent ErrNone req eq_refl Hreq) as [_ Hlost].
  exists req. apply Hlost; [|reflexivity].
  vm_compute in Hreq. simplify_eq. reflexivity.
Defined.

Lemma synthesis_failure_is_fatal_witness :
  let c := steps (llm_down_at 2 ["output_dict = 1 / 0"]) python_on
                 sample_df planner coder formatter true 4
                 (start (initial_state question)) in
  at_node c = Execute_Task /\
  exists w,
    run (llm_down_at 2 ["output_dict = 1 / 0"]) python_on sample_df
        planner coder formatter true 5 c
      = Crashed (mkExn "TimeoutError" true "The model did not answer.") w /\
    attempts w = 2.
Proof.
  intros c. split; [by vm_compute|].
  assert (exists req,
             synthesis_request sample_df coder
               (ErrText "division by zero") (st c) = Some req) as [req Hreq]
    by (eexists; by vm_compute).
  pose proof (synthesis_failure_is_fatal
                (llm_down_at 2 ["output_dict = 1 / 0"]) python_on sample_df
                planner coder formatter true c
                (ErrText "division by zero") req
                (mkExn "TimeoutError" true "The model did not answer.")
                eq_refl eq_refl Hreq) as Hrun.
  eexists. split.
  - apply Hrun. by vm_compute.
  - by vm_compute.
Defined.

Lemma execution_without_code_or_counter_witness :
  let c := mkConfig Code_Execution
                    (mkState (Some question) (Some "Sum the sales column.")
                             None (Some ErrNone) (Some 1) None None)
                    (mkLog [Plan_Task; Execute_Task] [] []) in
  run in_session [] 5 c
    = Crashed (UnboundLocalError "iterations")
              (mkLog [Plan_Task; Execute_Task; Code_Execution] [] []).
Proof.
  intros c.
  destruct (execution_without_code_or_counter in_session [] c eq_refl
              (or_introl eq_refl)) as [_ Hrun].
  exact (Hrun 4%nat).
Defined.

Lemma execution_crash_is_uncaught_witness :
  let s0 := initial_state question in
  let c := steps in_session ["raise SystemExit"] 3 (start s0) in
  exists cd e,
    code (st c) = Some cd /\
    python_on (length (exec_calls (log c))) cd (exec_namespace exec_globals)
      = Raise e /\
    isinstance_Exception e = false.
Proof.
  intros s0 c.
  assert (exists e w, step in_session ["raise SystemExit"] c = Crash e w)
    as (e & w & Hs) by (eexists _, _; by vm_compute).
  destruct (execution_crash_is_uncaught in_session ["raise SystemExit"]
              s0 c e w
              (reachable_steps in_session ["raise SystemExit"] s0 3
                 (start s0) (reach_start in_session ["raise SystemExit"] s0))
              ltac:(by vm_compute) Hs)
    as (cd & Hcd & Hraise & Hclass & _).
  by exists cd, e.
Defined.

Lemma session_shape_witness :
  let s0 := initial_state question in
  let c := steps in_session ["output_dict = 1 / 0";
                             "output_dict = {'total': 10}"] 6 (start s0) in
  at_node c = Format_Result /\
  exists k, node_calls (log c) = Plan_Task :: rounds (S k).
Proof.
  intros s0 c. split; [by vm_compute|].
  pose proof (session_shape in_session ["output_dict = 1 / 0";
                                        "output_dict = {'total': 10}"] s0 c
                (reachable_steps
                   in_session ["output_dict = 1 / 0";
                               "output_dict = {'total': 10}"] s0 6 (start s0)
                   (reach_start
                      in_session ["output_dict = 1 / 0";
                                  "output_dict = {'total': 10}"] s0)))
    as Hshape.
  assert (at_node c = Format_Result) as Hn by (by vm_compute).
  rewrite Hn in Hshape. exact Hshape.
Defined.

Lemma session_cost_bound_witness :
  match invoke in_session ["output_dict = 1 / 0"; "output_dict = 1 / 0";
                           "output_dict = {'total': 10}"]
               (initial_state question) with
  | Finished _ w | Crashed _ w =>
      (length (llm_calls w) <= 5)%nat /\
      (length (exec_calls w) <= 3)%nat /\
      (length (node_calls w) <= 8)%nat
  | RecursionLimit _ => False
  end.
Proof.
  pose proof (session_cost_bound
                in_session ["output_dict = 1 / 0"; "output_dict = 1 / 0";
                            "output_dict = {'total': 10}"]
                (initial_state question) eq_refl) as Hbound.
  exact Hbound.
Defined.

Lemma answer_follows_success_witness :
  let s0 := initial_state question in
  let c := steps in_session ["output_dict = None"] 5 (start s0) in
  at_node c = END /\ error (st c) = Some ErrNone /\
  exists q v a,
    user_query (st c) = Some q /\ output (st c) = Some v /\
    last_result python_on (log c) v /\
    answer (st c) = Some a /\
    last (llm_calls (log c)) = Some (FormatRequest formatter q v, Ok a).
Proof.
  intros s0 c.
  destruct (answer_follows_success
              in_session ["output_dict = None"] s0 c
              (reachable_steps in_session ["output_dict = None"]
                 s0 5 (start s0)
                 (reach_start in_session ["output_dict = None"] s0)))
    as (_ & _ & Hdone).
  apply Hdone. by vm_compute.
Defined.

Lemma fields_keep_until_written_witness :
  let s0 := mkState (Some question) None None (Some ErrNone) (Some 0) None
                    (Some "An earlier answer.") in
  let c := steps in_session ["output_dict = 1 / 0"] 4 (start s0) in
  user_query (st c) = Some question /\
  answer (st c) = Some "An earlier answer.".
Proof.
  intros s0 c.
  destruct (fields_keep_until_written in_session ["output_dict = 1 / 0"]
              s0 c
              (reachable_steps in_session ["output_dict = 1 / 0"] s0 4
                 (start s0)
                 (reach_start in_session ["output_dict = 1 / 0"] s0)))
    as (Hq & _ & _ & _ & Hans).
  split; [exact Hq|]. apply Hans. by vm_compute.
Defined.

Lemma executed_is_synthesized_witness :
  let s0 := initial_state question in
  let c := steps in_session ["output_dict = 1 / 0";
                             "output_dict = {'total': 10}"] 7 (start s0) in
  at_node c = END /\ synthesized (log c) = exec_calls (log c).
Proof.
  intros s0 c. split; [by vm_compute|].
  pose proof (executed_is_synthesized
                in_session ["output_dict = 1 / 0";
                            "output_dict = {'total': 10}"] s0 c
                (reachable_steps
                   in_session ["output_dict = 1 / 0";
                               "output_dict = {'total': 10}"] s0 7 (start s0)
                   (reach_start
                      in_session ["output_dict = 1 / 0";
                                  "output_dict = {'total': 10}"] s0)))
    as Hsame.
  assert (at_node c = END) as Hn by (by vm_compute).
  rewrite Hn in Hsame. exact Hsame.
Defined.

Lemma failure_is_fed_back_witness :
  let s0 := initial_state question in
  let c := steps in_session ["output_dict = 1 / 0";
                             "output_dict = {'total': 10}"] 3 (start s0) in
  let c1 := steps in_session ["output_dict = 1 / 0";
                              "output_dict = {'total': 10}"] 4 (start s0) in
  let c2 := steps in_session ["output_dict = 1 / 0";
                              "output_dict = {'total': 10}"] 5 (start s0) in
  exists cd txt,
    code (st c) = Some cd /\ error (st c1) = Some (ErrText txt) /\
    (txt <> EmptyString ->
     exists tp r,
       task_plan (st c) = Some tp /\
       last (llm_calls (log c2))
         = Some (RepairRequest (repair_prompt (ErrText txt) cd tp), Ok r)).
Proof.
  intros s0 c c1 c2.
  destruct (failure_is_fed_back
              in_session ["output_dict = 1 / 0";
                          "output_dict = {'total': 10}"] c c1 c2)
    as (cd & txt & Hcd & _ & Herr & Hrepair).
  - by vm_compute.
  - by vm_compute.
  - by vm_compute.
  - by vm_compute.
  - by exists cd, txt.
Defined.

